(** * gcal-mcp: the Google Calendar request adapter and its tool wiring

    A shallow embedding of [src/gcal.py].  Python strings are modelled as
    their UTF-8 byte sequences ([string] is a list of 8-bit [ascii]),
    Python [int] as [Z], a [dict] as an insertion-ordered association
    list, and [await ctx.dispatch(...)] as a node of a small free monad
    whose continuation receives the dispatch response. *)

From Stdlib Require Import ZArith NArith String Ascii List Bool Lia.
From stdpp Require Import base option strings list gmap pretty.

Set Warnings "-register-all".

Local Open Scope string_scope.
Local Open Scope list_scope.

(** ** Python values *)

Module Py.

(** The scalars a query parameter may hold: [None], [bool], [int], [str]. *)
Inductive Scalar : Type :=
| SNone
| SBool (b : bool)
| SInt (z : Z)
| SStr (s : string).

(** JSON-like values: what a request body and a response body hold. *)
Inductive PyVal : Type :=
| PAtom (a : Scalar)
| PList (l : list PyVal)
| PDict (d : list (string * PyVal)).

Definition PNone : PyVal := PAtom SNone.
Definition PStr (s : string) : PyVal := PAtom (SStr s).

(** [dict[str, V]]: entries in insertion order. *)
Definition dict (V : Type) : Type := list (string * V).

(** [d[k] = v]: overwrite in place when the key exists, append otherwise. *)
Fixpoint dict_set {V} (d : dict V) (k : string) (v : V) : dict V :=
  match d with
  | [] => [(k, v)]
  | (k', v') :: d' =>
      if String.eqb k' k then (k', v) :: d' else (k', v') :: dict_set d' k v
  end.

(** [d.get(k)] *)
Fixpoint dict_get {V} (d : dict V) (k : string) : option V :=
  match d with
  | [] => None
  | (k', v') :: d' => if String.eqb k' k then Some v' else dict_get d' k
  end.

Definition dict_keys {V} (d : dict V) : list string := map fst d.

(** Truthiness of a dict: non-empty. *)
Definition dict_truthy {V} (d : dict V) : bool :=
  match d with [] => false | _ :: _ => true end.

(** Truthiness of a [str]: non-empty. *)
Definition str_truthy (s : string) : bool :=
  match s with EmptyString => false | String _ _ => true end.

(** Truthiness of a [str | None] argument. *)
Definition opt_str_truthy (o : option string) : bool :=
  match o with Some s => str_truthy s | None => false end.

(** [str(b)] for a [bool]. *)
Definition str_bool (b : bool) : string := if b then "True" else "False".

(** [str(z)] for an [int]: decimal digits, a leading [-] when negative. *)
Definition str_int (z : Z) : string := pretty z.

(** [str(v)] on scalars. *)
Definition str (v : Scalar) : string :=
  match v with
  | SNone => "None"
  | SBool b => str_bool b
  | SInt z => str_int z
  | SStr s => s
  end.

Definition is_upper (c : ascii) : bool :=
  (65 <=? nat_of_ascii c)%nat && (nat_of_ascii c <=? 90)%nat.

Definition lower_char (c : ascii) : ascii :=
  if is_upper c then ascii_of_nat (nat_of_ascii c + 32) else c.

(** [s.lower()], on the ASCII letters. *)
Fixpoint lower (s : string) : string :=
  match s with
  | EmptyString => EmptyString
  | String c s' => String (lower_char c) (lower s')
  end.

(** [v is not None] *)
Definition is_not_None (v : Scalar) : bool :=
  match v with SNone => false | _ => true end.

(** [max(a, b)] and [min(a, b)] on [int]. *)
Definition max (a b : Z) : Z := Z.max a b.
Definition min (a b : Z) : Z := Z.min a b.

End Py.

(** ** [urllib.parse]: [quote], [quote_plus], [urlencode] *)

Module Urllib.
Import Py.

Definition in_range (lo hi : nat) (c : ascii) : bool :=
  (lo <=? nat_of_ascii c)%nat && (nat_of_ascii c <=? hi)%nat.

Fixpoint contains (c : ascii) (s : string) : bool :=
  match s with
  | EmptyString => false
  | String c' s' => Ascii.eqb c' c || contains c s'
  end.

(** [_ALWAYS_SAFE]: letters, digits and [_.-~]. *)
Definition always_safe (c : ascii) : bool :=
  in_range 65 90 c || in_range 97 122 c || in_range 48 57 c
  || contains c "_.-~".

Definition hex_digit (n : nat) : ascii :=
  if (n <? 10)%nat then ascii_of_nat (48 + n) else ascii_of_nat (55 + n).

(** ['%{:02X}'.format(byte)] *)
Definition percent (c : ascii) : string :=
  let n := nat_of_ascii c in
  String "%" (String (hex_digit (n / 16)) (String (hex_digit (n mod 16)) "")).

(** [quote(string, safe)]: bytes outside [_ALWAYS_SAFE + safe] become
    [%XX]. *)
Fixpoint quote (s : string) (safe : string) : string :=
  match s with
  | EmptyString => EmptyString
  | String c s' =>
      (if always_safe c || contains c safe then String c "" else percent c)
      +:+ quote s' safe
  end.

(** [s.replace(old, new)] for one-character [old] and [new]. *)
Fixpoint replace (old new : ascii) (s : string) : string :=
  match s with
  | EmptyString => EmptyString
  | String c s' =>
      String (if Ascii.eqb c old then new else c) (replace old new s')
  end.

(** [quote_plus(string, safe='')] *)
Definition quote_plus (s : string) : string :=
  if negb (contains " " s) then quote s ""
  else replace " " "+" (quote s " ").

(** ['&'.join(l)] *)
Fixpoint join (sep : string) (l : list string) : string :=
  match l with
  | [] => ""
  | [x] => x
  | x :: l' => x +:+ sep +:+ join sep l'
  end.

(** [urlencode(query)] for a mapping, with the default [quote_via]. *)
Definition urlencode (query : dict Scalar) : string :=
  join "&"
    (map (fun kv => quote_plus (fst kv) +:+ "=" +:+ quote_plus (str (snd kv)))
         query).

(** *** Decoding a query string

    The reading of a query string by its recipient: split at [&], split
    each field at its first [=], undo the form encoding.  Used to state
    which parameters a query string carries. *)

Definition hex_val (c : ascii) : option nat :=
  let n := nat_of_ascii c in
  if in_range 48 57 c then Some (n - 48)
  else if in_range 65 70 c then Some (n - 55)
  else if in_range 97 102 c then Some (n - 87)
  else None.

Fixpoint unquote (s : string) : string :=
  match s with
  | EmptyString => EmptyString
  | String c tl =>
      if Ascii.eqb c "%" then
        match tl with
        | String x (String y rest) =>
            match hex_val x, hex_val y with
            | Some h, Some l =>
                String (ascii_of_nat (16 * h + l)) (unquote rest)
            | _, _ => String c (unquote tl)
            end
        | _ => String c (unquote tl)
        end
      else String c (unquote tl)
  end.

Definition unquote_plus (s : string) : string :=
  unquote (replace "+" " " s).

(** [s.split(sep)] for a one-character separator. *)
Fixpoint split (sep : ascii) (s : string) : list string :=
  match s with
  | EmptyString => [""]
  | String c s' =>
      if Ascii.eqb c sep then "" :: split sep s'
      else match split sep s' with
           | h :: t => String c h :: t
           | [] => [String c ""]
           end
  end.

(** [s.partition(sep)], without the separator. *)
Fixpoint partition (sep : ascii) (s : string) : string * string :=
  match s with
  | EmptyString => ("", "")
  | String c s' =>
      if Ascii.eqb c sep then ("", s')
      else let (a, b) := partition sep s' in (String c a, b)
  end.

Definition query_pairs (qs : string) : list (string * string) :=
  match qs with
  | EmptyString => []
  | _ =>
      map (fun field =>
             let (k, v) := partition "=" field in
             (unquote_plus k, unquote_plus v))
          (split "&" qs)
  end.

(** *** The encoding, byte by byte

    What [quote_plus] comes to on one byte and on a string, and one
    [key=value] field of [urlencode]; the facts below relate them to the
    definitions above. *)

Definition enc (c : ascii) : string :=
  if always_safe c then String c ""
  else if Ascii.eqb c " " then "+" else percent c.

Fixpoint encode (s : string) : string :=
  match s with
  | EmptyString => EmptyString
  | String c s' => enc c +:+ encode s'
  end.

(** One [key=value] field of an encoded query. *)
Definition field (kv : string * Scalar) : string :=
  quote_plus (fst kv) +:+ "=" +:+ quote_plus (str (snd kv)).

Definition shown (kv : string * Scalar) : string * string :=
  (fst kv, str (snd kv)).

End Urllib.

(** ** The [dedalus_mcp] interface used by the module *)

Module Dedalus.
Import Py.

(** Modelled from the spec: the [HttpMethod] enumeration of
    [dedalus_mcp], one of GET/POST/PUT/PATCH/DELETE. *)
Inductive HttpMethod : Type := GET | POST | PUT | PATCH | DELETE.

Module HttpRequest.
(** Modelled from the spec: the request descriptor [HttpRequest] of
    [dedalus_mcp], with its method, path and optional JSON body. *)
Record t : Type := mk
  { method : HttpMethod; path : string; body : option (dict PyVal) }.
End HttpRequest.

Module HttpResponse.
(** Modelled from the spec: the [response] object of a successful
    dispatch, of which the module reads [body]. *)
Record t : Type := mk { body : PyVal }.
End HttpResponse.

Module DispatchError.
(** Modelled from the spec: the [error] object of a failed dispatch, of
    which the module reads [message]. *)
Record t : Type := mk { message : string }.
End DispatchError.

Module DispatchResponse.
(** Modelled from the spec: what [ctx.dispatch] answers, either
    [{success:true, response:{body:...}}] or
    [{success:false, error:{message:...}}]; both objects are optional
    attributes, as the module tests [response.error] for presence. *)
Record t : Type := mk
  { success : bool;
    response : option HttpResponse.t;
    error : option DispatchError.t }.
End DispatchResponse.

(** [None.body] raises. *)
Inductive Exn : Type := AttributeError.

(** A computation that may await the dispatch capability: it returns,
    raises, or sends a request on a connection and continues with the
    answer. *)
Inductive Async (A : Type) : Type :=
| Return (a : A)
| Raise (e : Exn)
| Await (conn : string) (request : HttpRequest.t)
        (k : DispatchResponse.t -> Async A).
Arguments Return {A} a.
Arguments Raise {A} e.
Arguments Await {A} conn request k.

Fixpoint bind {A B} (m : Async A) (f : A -> Async B) : Async B :=
  match m with
  | Return a => f a
  | Raise e => Raise e
  | Await conn request k => Await conn request (fun r => bind (k r) f)
  end.

#[global] Instance Async_ret : MRet Async := fun _ a => Return a.
#[global] Instance Async_bind : MBind Async := fun _ _ f m => bind m f.

(** [await ctx.dispatch(conn, request)] *)
Definition dispatch (conn : string) (request : HttpRequest.t)
  : Async DispatchResponse.t :=
  Await conn request Return.

(** [o.attr] on an optional object: [AttributeError] on [None]. *)
Definition attr_of {O A} (o : option O) (attr : O -> A) : Async A :=
  match o with
  | Some x => Return (attr x)
  | None => Raise AttributeError
  end.

(** How an await ends for the caller. *)
Inductive Outcome (A : Type) : Type :=
| Returned (a : A)
| Raised (e : Exn).
Arguments Returned {A} a.
Arguments Raised {A} e.

(** Running a computation against a dispatch capability. *)
Fixpoint run {A} (capability : string -> HttpRequest.t -> DispatchResponse.t)
    (m : Async A) : Outcome A :=
  match m with
  | Return a => Returned a
  | Raise e => Raised e
  | Await conn request k => run capability (k (capability conn request))
  end.

(** The requests a run hands to the capability, in order. *)
Fixpoint sent {A} (capability : string -> HttpRequest.t -> DispatchResponse.t)
    (m : Async A) : list (string * HttpRequest.t) :=
  match m with
  | Return _ | Raise _ => []
  | Await conn request k =>
      (conn, request) :: sent capability (k (capability conn request))
  end.

End Dedalus.

(** ** [gcal.py] *)

Module GCal.
Import Py Urllib Dedalus.
Import HttpRequest.

Record GCalResult : Type := mkGCalResult
  { success : bool; data : PyVal; error : option string }.

(** [GCalResult(success=..., ...)] with the defaults [data=None],
    [error=None] of the model. *)
Definition GCalResult_ok (d : PyVal) : GCalResult :=
  {| success := true; data := d; error := None |}.
Definition GCalResult_err (msg : string) : GCalResult :=
  {| success := false; data := PNone; error := Some msg |}.

(** The comprehension [{k: v for k, v in params.items() if v is not None}]. *)
Definition without_None (params : dict Scalar) : dict Scalar :=
  List.filter (fun kv => is_not_None (snd kv)) params.

(** The path [_request] dispatches: [path] with the query string of
    [params], when there is one. *)
Definition request_path (path : string) (params : option (dict Scalar))
  : string :=
  match params with
  | Some params =>
      if dict_truthy params then
        let query_string := urlencode (without_None params) in
        if str_truthy query_string then path +:+ "?" +:+ query_string
        else path
      else path
  | None => path
  end.

Definition _request (method : HttpMethod) (path : string)
    (params : option (dict Scalar)) (body : option (dict PyVal))
  : Async GCalResult :=
  let path := request_path path params in
  let request := {| method := method; path := path; body := body |} in
  response ← dispatch "gcal-mcp" request;
  if DispatchResponse.success response then
    b ← attr_of (DispatchResponse.response response) HttpResponse.body;
    mret (GCalResult_ok b)
  else
    let msg :=
      match DispatchResponse.error response with
      | Some e => DispatchError.message e
      | None => "Request failed"
      end in
    mret (GCalResult_err msg).

(** *** The tools *)

Definition gcal_list_calendars : Async GCalResult :=
  _request GET "/users/me/calendarList"
    (Some [("minAccessRole", SStr "reader")]) None.

Definition gcal_get_calendar (calendar_id : string) : Async GCalResult :=
  _request GET ("/calendars/" +:+ calendar_id) None None.

Definition gcal_create_calendar (summary : string)
    (description time_zone location : option string) : Async GCalResult :=
  let body : dict PyVal := [("summary", PStr summary)] in
  let body :=
    match description with
    | Some d => dict_set body "description" (PStr d)
    | None => body
    end in
  let body :=
    match time_zone with
    | Some z => dict_set body "timeZone" (PStr z)
    | None => body
    end in
  let body :=
    match location with
    | Some l => dict_set body "location" (PStr l)
    | None => body
    end in
  _request POST "/calendars" None (Some body).

Definition gcal_delete_calendar (calendar_id : string) : Async GCalResult :=
  _request DELETE ("/calendars/" +:+ calendar_id) None None.

Definition gcal_clear_calendar (calendar_id : string) : Async GCalResult :=
  _request POST ("/calendars/" +:+ calendar_id +:+ "/clear") None None.

Definition gcal_patch_calendar (calendar_id : string) (patch : dict PyVal)
  : Async GCalResult :=
  _request PATCH ("/calendars/" +:+ calendar_id) None (Some patch).

Definition gcal_update_calendar (calendar_id : string)
    (calendar : dict PyVal) : Async GCalResult :=
  _request PUT ("/calendars/" +:+ calendar_id) None (Some calendar).

Definition gcal_calendarlist_get (calendar_id : string) : Async GCalResult :=
  _request GET ("/users/me/calendarList/" +:+ calendar_id) None None.

Definition gcal_calendarlist_insert (entry : dict PyVal)
  : Async GCalResult :=
  _request POST "/users/me/calendarList" None (Some entry).

Definition gcal_calendarlist_delete (calendar_id : string)
  : Async GCalResult :=
  _request DELETE ("/users/me/calendarList/" +:+ calendar_id) None None.

Definition gcal_calendarlist_patch (calendar_id : string)
    (patch : dict PyVal) : Async GCalResult :=
  _request PATCH ("/users/me/calendarList/" +:+ calendar_id) None
    (Some patch).

Definition gcal_calendarlist_update (calendar_id : string)
    (entry : dict PyVal) : Async GCalResult :=
  _request PUT ("/users/me/calendarList/" +:+ calendar_id) None
    (Some entry).

Definition gcal_create_event (calendar_id : string) (event : dict PyVal)
    (send_updates : option string) (supports_attachments : option bool)
  : Async GCalResult :=
  let params : dict Scalar := [] in
  let params :=
    match send_updates with
    | Some u => dict_set params "sendUpdates" (SStr u)
    | None => params
    end in
  let params :=
    match supports_attachments with
    | Some a =>
        dict_set params "supportsAttachments" (SStr (lower (str (SBool a))))
    | None => params
    end in
  _request POST ("/calendars/" +:+ calendar_id +:+ "/events")
    (Some params) (Some event).

Definition gcal_delete_event (calendar_id event_id : string)
    (send_updates : option string) : Async GCalResult :=
  let params : dict Scalar := [] in
  let params :=
    match send_updates with
    | Some u => dict_set params "sendUpdates" (SStr u)
    | None => params
    end in
  _request DELETE
    ("/calendars/" +:+ calendar_id +:+ "/events/" +:+ event_id)
    (Some params) None.

Definition gcal_patch_event (calendar_id event_id : string)
    (patch : dict PyVal) (send_updates : option string)
  : Async GCalResult :=
  let params : dict Scalar := [] in
  let params :=
    match send_updates with
    | Some u => dict_set params "sendUpdates" (SStr u)
    | None => params
    end in
  _request PATCH
    ("/calendars/" +:+ calendar_id +:+ "/events/" +:+ event_id)
    (Some params) (Some patch).

Definition gcal_update_event (calendar_id event_id : string)
    (event : dict PyVal) (send_updates : option string)
  : Async GCalResult :=
  let params : dict Scalar := [] in
  let params :=
    match send_updates with
    | Some u => dict_set params "sendUpdates" (SStr u)
    | None => params
    end in
  _request PUT
    ("/calendars/" +:+ calendar_id +:+ "/events/" +:+ event_id)
    (Some params) (Some event).

Definition gcal_quick_add_event (calendar_id text : string)
    (send_updates : option string) : Async GCalResult :=
  let params : dict Scalar := [("text", SStr text)] in
  let params :=
    match send_updates with
    | Some u => dict_set params "sendUpdates" (SStr u)
    | None => params
    end in
  _request POST ("/calendars/" +:+ calendar_id +:+ "/events/quickAdd")
    (Some params) None.

Definition gcal_move_event (source_calendar_id event_id : string)
    (destination_calendar_id : string) (send_updates : option string)
  : Async GCalResult :=
  let params : dict Scalar :=
    [("destination", SStr destination_calendar_id)] in
  let params :=
    match send_updates with
    | Some u => dict_set params "sendUpdates" (SStr u)
    | None => params
    end in
  _request POST
    ("/calendars/" +:+ source_calendar_id +:+ "/events/" +:+ event_id
     +:+ "/move")
    (Some params) None.

Definition gcal_import_event (calendar_id : string) (event : dict PyVal)
    (supports_attachments : option bool) : Async GCalResult :=
  let params : dict Scalar := [] in
  let params :=
    match supports_attachments with
    | Some a =>
        dict_set params "supportsAttachments" (SStr (lower (str (SBool a))))
    | None => params
    end in
  _request POST ("/calendars/" +:+ calendar_id +:+ "/events/import")
    (Some params) (Some event).

Definition gcal_channels_stop (channel : dict PyVal) : Async GCalResult :=
  _request POST "/channels/stop" None (Some channel).

Definition gcal_events_watch (calendar_id : string) (channel : dict PyVal)
    (time_min time_max : option string) (single_events : option bool)
  : Async GCalResult :=
  let params : dict Scalar := [] in
  let params :=
    match time_min with
    | Some t => dict_set params "timeMin" (SStr t)
    | None => params
    end in
  let params :=
    match time_max with
    | Some t => dict_set params "timeMax" (SStr t)
    | None => params
    end in
  let params :=
    match single_events with
    | Some e => dict_set params "singleEvents" (SStr (lower (str (SBool e))))
    | None => params
    end in
  _request POST ("/calendars/" +:+ calendar_id +:+ "/events/watch")
    (Some params) (Some channel).

Definition gcal_calendarlist_watch (channel : dict PyVal)
  : Async GCalResult :=
  _request POST "/users/me/calendarList/watch" None (Some channel).

Definition gcal_settings_watch (channel : dict PyVal) : Async GCalResult :=
  _request POST "/users/me/settings/watch" None (Some channel).

(** [if arg: params[key] = arg] for a [str | None] argument. *)
Definition set_if_truthy (params : dict Scalar) (key : string)
    (arg : option string) : dict Scalar :=
  match arg with
  | Some s => if str_truthy s then dict_set params key (SStr s) else params
  | None => params
  end.

Definition gcal_list_events (calendar_id : string)
    (time_min time_max : option string) (max_results : Z)
    (single_events : bool) (order_by : string) : Async GCalResult :=
  let max_results := max 1 (min 2500 max_results) in
  let params : dict Scalar :=
    [("maxResults", SStr (str (SInt max_results)));
     ("singleEvents", SStr (lower (str (SBool single_events))))] in
  let params := set_if_truthy params "timeMin" time_min in
  let params := set_if_truthy params "timeMax" time_max in
  let params :=
    if single_events then dict_set params "orderBy" (SStr order_by)
    else params in
  _request GET ("/calendars/" +:+ calendar_id +:+ "/events")
    (Some params) None.

Definition gcal_get_event (calendar_id event_id : string)
  : Async GCalResult :=
  _request GET ("/calendars/" +:+ calendar_id +:+ "/events/" +:+ event_id)
    None None.

Definition gcal_search_events (query : string) (calendar_id : string)
    (time_min time_max : option string) (max_results : Z)
  : Async GCalResult :=
  let max_results := max 1 (min 2500 max_results) in
  let params : dict Scalar :=
    [("q", SStr query);
     ("maxResults", SStr (str (SInt max_results)));
     ("singleEvents", SStr "true");
     ("orderBy", SStr "startTime")] in
  let params := set_if_truthy params "timeMin" time_min in
  let params := set_if_truthy params "timeMax" time_max in
  _request GET ("/calendars/" +:+ calendar_id +:+ "/events")
    (Some params) None.

Definition gcal_get_event_instances (calendar_id event_id : string)
    (time_min time_max : option string) (max_results : Z)
  : Async GCalResult :=
  let max_results := max 1 (min 2500 max_results) in
  let params : dict Scalar :=
    [("maxResults", SStr (str (SInt max_results)))] in
  let params := set_if_truthy params "timeMin" time_min in
  let params := set_if_truthy params "timeMax" time_max in
  _request GET
    ("/calendars/" +:+ calendar_id +:+ "/events/" +:+ event_id
     +:+ "/instances")
    (Some params) None.

Definition gcal_get_freebusy (time_min time_max : string)
    (calendar_ids : option (list string)) (time_zone : option string)
  : Async GCalResult :=
  let calendar_ids :=
    match calendar_ids with
    | None => ["primary"]
    | Some ids => ids
    end in
  let body : dict PyVal :=
    [("timeMin", PStr time_min);
     ("timeMax", PStr time_max);
     ("items",
      PList (map (fun cal_id => PDict [("id", PStr cal_id)]) calendar_ids))]
  in
  let body :=
    match time_zone with
    | Some z => if str_truthy z then dict_set body "timeZone" (PStr z) else body
    | None => body
    end in
  _request POST "/freeBusy" None (Some body).

Definition gcal_get_settings : Async GCalResult :=
  _request GET "/users/me/settings" None None.

Definition gcal_get_setting (setting_id : string) : Async GCalResult :=
  _request GET ("/users/me/settings/" +:+ setting_id) None None.

Definition gcal_get_colors : Async GCalResult :=
  _request GET "/colors" None None.

(** *** [gcal_tools]: a tool invocation, as the tool framework makes it

    An argument the signature gives a default to is optional in the
    call; [invoke] binds the signature's default when it is left out. *)

Inductive ToolCall : Type :=
| Call_list_calendars
| Call_get_calendar (calendar_id : string)
| Call_create_calendar (summary : string)
    (description time_zone location : option string)
| Call_delete_calendar (calendar_id : string)
| Call_clear_calendar (calendar_id : option string)
| Call_patch_calendar (calendar_id : string) (patch : dict PyVal)
| Call_update_calendar (calendar_id : string) (calendar : dict PyVal)
| Call_calendarlist_get (calendar_id : string)
| Call_calendarlist_insert (entry : dict PyVal)
| Call_calendarlist_delete (calendar_id : string)
| Call_calendarlist_patch (calendar_id : string) (patch : dict PyVal)
| Call_calendarlist_update (calendar_id : string) (entry : dict PyVal)
| Call_list_events (calendar_id : option string)
    (time_min time_max : option string) (max_results : option Z)
    (single_events : option bool) (order_by : option string)
| Call_get_event (calendar_id event_id : string)
| Call_search_events (query : string) (calendar_id : option string)
    (time_min time_max : option string) (max_results : option Z)
| Call_get_event_instances (calendar_id event_id : string)
    (time_min time_max : option string) (max_results : option Z)
| Call_create_event (calendar_id : string) (event : dict PyVal)
    (send_updates : option string) (supports_attachments : option bool)
| Call_delete_event (calendar_id event_id : string)
    (send_updates : option string)
| Call_patch_event (calendar_id event_id : string) (patch : dict PyVal)
    (send_updates : option string)
| Call_update_event (calendar_id event_id : string) (event : dict PyVal)
    (send_updates : option string)
| Call_quick_add_event (calendar_id text : string)
    (send_updates : option string)
| Call_move_event (source_calendar_id event_id : string)
    (destination_calendar_id : string) (send_updates : option string)
| Call_import_event (calendar_id : string) (event : dict PyVal)
    (supports_attachments : option bool)
| Call_get_freebusy (time_min time_max : string)
    (calendar_ids : option (list string)) (time_zone : option string)
| Call_get_settings
| Call_get_setting (setting_id : string)
| Call_settings_watch (channel : dict PyVal)
| Call_get_colors
| Call_channels_stop (channel : dict PyVal)
| Call_events_watch (calendar_id : string) (channel : dict PyVal)
    (time_min time_max : option string) (single_events : option bool)
| Call_calendarlist_watch (channel : dict PyVal).

Definition invoke (c : ToolCall) : Async GCalResult :=
  match c with
  | Call_list_calendars => gcal_list_calendars
  | Call_get_calendar calendar_id => gcal_get_calendar calendar_id
  | Call_create_calendar summary description time_zone location =>
      gcal_create_calendar summary description time_zone location
  | Call_delete_calendar calendar_id => gcal_delete_calendar calendar_id
  | Call_clear_calendar calendar_id =>
      gcal_clear_calendar (default "primary" calendar_id)
  | Call_patch_calendar calendar_id patch =>
      gcal_patch_calendar calendar_id patch
  | Call_update_calendar calendar_id calendar =>
      gcal_update_calendar calendar_id calendar
  | Call_calendarlist_get calendar_id => gcal_calendarlist_get calendar_id
  | Call_calendarlist_insert entry => gcal_calendarlist_insert entry
  | Call_calendarlist_delete calendar_id =>
      gcal_calendarlist_delete calendar_id
  | Call_calendarlist_patch calendar_id patch =>
      gcal_calendarlist_patch calendar_id patch
  | Call_calendarlist_update calendar_id entry =>
      gcal_calendarlist_update calendar_id entry
  | Call_list_events calendar_id time_min time_max max_results
      single_events order_by =>
      gcal_list_events (default "primary" calendar_id) time_min time_max
        (default 25%Z max_results) (default true single_events)
        (default "startTime" order_by)
  | Call_get_event calendar_id event_id => gcal_get_event calendar_id event_id
  | Call_search_events query calendar_id time_min time_max max_results =>
      gcal_search_events query (default "primary" calendar_id) time_min
        time_max (default 25%Z max_results)
  | Call_get_event_instances calendar_id event_id time_min time_max
      max_results =>
      gcal_get_event_instances calendar_id event_id time_min time_max
        (default 25%Z max_results)
  | Call_create_event calendar_id event send_updates supports_attachments =>
      gcal_create_event calendar_id event send_updates supports_attachments
  | Call_delete_event calendar_id event_id send_updates =>
      gcal_delete_event calendar_id event_id send_updates
  | Call_patch_event calendar_id event_id patch send_updates =>
      gcal_patch_event calendar_id event_id patch send_updates
  | Call_update_event calendar_id event_id event send_updates =>
      gcal_update_event calendar_id event_id event send_updates
  | Call_quick_add_event calendar_id text send_updates =>
      gcal_quick_add_event calendar_id text send_updates
  | Call_move_event source_calendar_id event_id destination_calendar_id
      send_updates =>
      gcal_move_event source_calendar_id event_id destination_calendar_id
        send_updates
  | Call_import_event calendar_id event supports_attachments =>
      gcal_import_event calendar_id event supports_attachments
  | Call_get_freebusy time_min time_max calendar_ids time_zone =>
      gcal_get_freebusy time_min time_max calendar_ids time_zone
  | Call_get_settings => gcal_get_settings
  | Call_get_setting setting_id => gcal_get_setting setting_id
  | Call_settings_watch channel => gcal_settings_watch channel
  | Call_get_colors => gcal_get_colors
  | Call_channels_stop channel => gcal_channels_stop channel
  | Call_events_watch calendar_id channel time_min time_max single_events =>
      gcal_events_watch calendar_id channel time_min time_max single_events
  | Call_calendarlist_watch channel => gcal_calendarlist_watch channel
  end.

End GCal.

(** ** What a tool invocation puts on the wire *)

Module Wire.
Import Py Urllib Dedalus GCal.

(** The request a computation hands to the dispatch capability first. *)
Definition request_of {A} (m : Async A) : option HttpRequest.t :=
  match m with
  | Await _ request _ => Some request
  | _ => None
  end.

Fixpoint strip_prefix (p s : string) : option string :=
  match p, s with
  | EmptyString, _ => Some s
  | String a p', String b s' =>
      if Ascii.eqb a b then strip_prefix p' s' else None
  | String _ _, EmptyString => None
  end.

(** The query string of a dispatched path: what follows [endpoint?]. *)
Definition query_of (endpoint full : string) : string :=
  match strip_prefix endpoint full with
  | Some (String c qs) => if Ascii.eqb c "?" then qs else ""
  | _ => ""
  end.

(** The decoded query parameters sent by [m] to [endpoint]. *)
Definition query_params {A} (endpoint : string) (m : Async A)
  : list (string * string) :=
  match request_of m with
  | Some request => query_pairs (query_of endpoint (HttpRequest.path request))
  | None => []
  end.

(** The values a decoded query carries under [key], in order. *)
Definition param_values (key : string) (pairs : list (string * string))
  : list string :=
  map snd (List.filter (fun kv => String.eqb (fst kv) key) pairs).

(** The JSON body sent by [m], if any. *)
Definition body_of {A} (m : Async A) : option (dict PyVal) :=
  match request_of m with
  | Some request => HttpRequest.body request
  | None => None
  end.

(** The endpoint each tool addresses, identifiers substituted. *)
Definition endpoint (c : ToolCall) : string :=
  match c with
  | Call_list_calendars => "/users/me/calendarList"
  | Call_get_calendar calendar_id => "/calendars/" +:+ calendar_id
  | Call_create_calendar _ _ _ _ => "/calendars"
  | Call_delete_calendar calendar_id => "/calendars/" +:+ calendar_id
  | Call_clear_calendar calendar_id =>
      "/calendars/" +:+ default "primary" calendar_id +:+ "/clear"
  | Call_patch_calendar calendar_id _ => "/calendars/" +:+ calendar_id
  | Call_update_calendar calendar_id _ => "/calendars/" +:+ calendar_id
  | Call_calendarlist_get calendar_id =>
      "/users/me/calendarList/" +:+ calendar_id
  | Call_calendarlist_insert _ => "/users/me/calendarList"
  | Call_calendarlist_delete calendar_id =>
      "/users/me/calendarList/" +:+ calendar_id
  | Call_calendarlist_patch calendar_id _ =>
      "/users/me/calendarList/" +:+ calendar_id
  | Call_calendarlist_update calendar_id _ =>
      "/users/me/calendarList/" +:+ calendar_id
  | Call_list_events calendar_id _ _ _ _ _ =>
      "/calendars/" +:+ default "primary" calendar_id +:+ "/events"
  | Call_get_event calendar_id event_id =>
      "/calendars/" +:+ calendar_id +:+ "/events/" +:+ event_id
  | Call_search_events _ calendar_id _ _ _ =>
      "/calendars/" +:+ default "primary" calendar_id +:+ "/events"
  | Call_get_event_instances calendar_id event_id _ _ _ =>
      "/calendars/" +:+ calendar_id +:+ "/events/" +:+ event_id
      +:+ "/instances"
  | Call_create_event calendar_id _ _ _ =>
      "/calendars/" +:+ calendar_id +:+ "/events"
  | Call_delete_event calendar_id event_id _ =>
      "/calendars/" +:+ calendar_id +:+ "/events/" +:+ event_id
  | Call_patch_event calendar_id event_id _ _ =>
      "/calendars/" +:+ calendar_id +:+ "/events/" +:+ event_id
  | Call_update_event calendar_id event_id _ _ =>
      "/calendars/" +:+ calendar_id +:+ "/events/" +:+ event_id
  | Call_quick_add_event calendar_id _ _ =>
      "/calendars/" +:+ calendar_id +:+ "/events/quickAdd"
  | Call_move_event source_calendar_id event_id _ _ =>
      "/calendars/" +:+ source_calendar_id +:+ "/events/" +:+ event_id
      +:+ "/move"
  | Call_import_event calendar_id _ _ =>
      "/calendars/" +:+ calendar_id +:+ "/events/import"
  | Call_get_freebusy _ _ _ _ => "/freeBusy"
  | Call_get_settings => "/users/me/settings"
  | Call_get_setting setting_id => "/users/me/settings/" +:+ setting_id
  | Call_settings_watch _ => "/users/me/settings/watch"
  | Call_get_colors => "/colors"
  | Call_channels_stop _ => "/channels/stop"
  | Call_events_watch calendar_id _ _ _ _ =>
      "/calendars/" +:+ calendar_id +:+ "/events/watch"
  | Call_calendarlist_watch _ => "/users/me/calendarList/watch"
  end.

Definition tool_query (c : ToolCall) : list (string * string) :=
  query_params (endpoint c) (invoke c).

Definition tool_body (c : ToolCall) : option (dict PyVal) :=
  body_of (invoke c).

(** Where a tool parameter travels. *)
Inductive Place : Type := InQuery | InBody.

Definition absent {A} (place : Place) (key : string) (arg : option A)
  : list (Place * string) :=
  match arg with
  | None => [(place, key)]
  | Some _ => []
  end.

(** The wire keys of the optional ([... | None]) parameters that a call
    leaves absent. *)
Definition absent_optionals (c : ToolCall) : list (Place * string) :=
  match c with
  | Call_create_calendar _ description time_zone location =>
      absent InBody "description" description
      ++ absent InBody "timeZone" time_zone
      ++ absent InBody "location" location
  | Call_list_events _ time_min time_max _ _ _
  | Call_search_events _ _ time_min time_max _
  | Call_get_event_instances _ _ time_min time_max _ =>
      absent InQuery "timeMin" time_min ++ absent InQuery "timeMax" time_max
  | Call_create_event _ _ send_updates supports_attachments =>
      absent InQuery "sendUpdates" send_updates
      ++ absent InQuery "supportsAttachments" supports_attachments
  | Call_delete_event _ _ send_updates
  | Call_patch_event _ _ _ send_updates
  | Call_update_event _ _ _ send_updates
  | Call_quick_add_event _ _ send_updates
  | Call_move_event _ _ _ send_updates =>
      absent InQuery "sendUpdates" send_updates
  | Call_import_event _ _ supports_attachments =>
      absent InQuery "supportsAttachments" supports_attachments
  | Call_get_freebusy _ _ calendar_ids time_zone =>
      absent InBody "items" calendar_ids
      ++ absent InBody "timeZone" time_zone
  | Call_events_watch _ _ time_min time_max single_events =>
      absent InQuery "timeMin" time_min
      ++ absent InQuery "timeMax" time_max
      ++ absent InQuery "singleEvents" single_events
  | _ => []
  end.

(** The keys a call carries at a place. *)
Definition keys_at (place : Place) (c : ToolCall) : list string :=
  match place with
  | InQuery => map fst (tool_query c)
  | InBody =>
      match tool_body c with
      | Some body => dict_keys body
      | None => []
      end
  end.

(** The boolean query flags a call supplies, with their wire keys. *)
Definition bool_flags (c : ToolCall) : list (string * bool) :=
  match c with
  | Call_list_events _ _ _ _ single_events _ =>
      [("singleEvents", default true single_events)]
  | Call_create_event _ _ _ (Some a)
  | Call_import_event _ _ (Some a) => [("supportsAttachments", a)]
  | Call_events_watch _ _ _ _ (Some e) => [("singleEvents", e)]
  | _ => []
  end.

(** [z] clamped to the inclusive range [[lo, hi]]. *)
Definition clamp (lo hi z : Z) : Z :=
  if (z <? lo)%Z then lo else if (hi <? z)%Z then hi else z.

(** How a boolean reads as a lowercase query flag. *)
Definition flag (b : bool) : string := if b then "true" else "false".

(** The [GCalResult] invariant of the data model. *)
Definition result_invariant (r : GCalResult) : Prop :=
  (success r = true -> error r = None)
  /\ (success r = false -> data r = PNone /\ exists msg, error r = Some msg).

(** A capability that answers every request with the same response. *)
Definition always (response : DispatchResponse.t)
  : string -> HttpRequest.t -> DispatchResponse.t :=
  fun _ _ => response.

Definition ok_response (b : PyVal) : DispatchResponse.t :=
  DispatchResponse.mk true (Some (HttpResponse.mk b)) None.

Definition failed_response (e : option DispatchError.t)
  : DispatchResponse.t :=
  DispatchResponse.mk false None e.

(** How a run of the adapter may end: with a result that satisfies the
    invariant of the data model, or by raising because the capability
    claimed success without a response object. *)
Definition well_ended
    (capability : string -> HttpRequest.t -> DispatchResponse.t)
    (o : Outcome GCalResult) : Prop :=
  match o with
  | Returned r => result_invariant r
  | Raised _ =>
      exists conn request,
        DispatchResponse.success (capability conn request) = true
        /\ DispatchResponse.response (capability conn request) = None
  end.

(** The bytes that may stand for themselves in a query string: the
    unreserved ones of RFC 3986, [+] for a space, and the separators [=]
    and [&]. *)
Definition plain_char (c : ascii) : bool :=
  contains c
    "ABCDEFGHIJKLMNOPQRSTUVWXYZabcdefghijklmnopqrstuvwxyz0123456789_.-~+=&".

(** The bytes a query string is made of: the plain ones and [%]. *)
Definition query_char (c : ascii) : bool :=
  plain_char c || Ascii.eqb c "%".

Definition upper_hex (c : ascii) : bool := contains c "0123456789ABCDEF".

(** A string of plain bytes and escapes [%XX], each [%] followed by two
    upper-case hexadecimal digits. *)
Fixpoint well_escaped (s : string) : bool :=
  match s with
  | EmptyString => true
  | String c tl =>
      if Ascii.eqb c "%" then
        match tl with
        | String x (String y rest) =>
            upper_hex x && upper_hex y && well_escaped rest
        | _ => false
        end
      else plain_char c && well_escaped tl
  end.

Fixpoint all_chars (ok : ascii -> bool) (s : string) : bool :=
  match s with
  | EmptyString => true
  | String c s' => ok c && all_chars ok s'
  end.

(** The parameter names of the Calendar API the tools use. *)
Definition query_vocabulary : list string :=
  ["minAccessRole"; "sendUpdates"; "supportsAttachments"; "text";
   "destination"; "timeMin"; "timeMax"; "singleEvents"; "maxResults";
   "orderBy"; "q"].

(** A capability that never claims success without a response object. *)
Definition well_formed
    (capability : string -> HttpRequest.t -> DispatchResponse.t) : Prop :=
  forall conn request,
    DispatchResponse.success (capability conn request) = true ->
    DispatchResponse.response (capability conn request) <> None.

(** The identifiers a call substitutes into its path. *)
Definition identifiers (c : ToolCall) : list string :=
  match c with
  | Call_get_calendar calendar_id
  | Call_delete_calendar calendar_id
  | Call_patch_calendar calendar_id _
  | Call_update_calendar calendar_id _
  | Call_calendarlist_get calendar_id
  | Call_calendarlist_delete calendar_id
  | Call_calendarlist_patch calendar_id _
  | Call_calendarlist_update calendar_id _
  | Call_create_event calendar_id _ _ _
  | Call_quick_add_event calendar_id _ _
  | Call_import_event calendar_id _ _
  | Call_events_watch calendar_id _ _ _ _ => [calendar_id]
  | Call_clear_calendar calendar_id
  | Call_list_events calendar_id _ _ _ _ _
  | Call_search_events _ calendar_id _ _ _ => [default "primary" calendar_id]
  | Call_get_event calendar_id event_id
  | Call_get_event_instances calendar_id event_id _ _ _
  | Call_delete_event calendar_id event_id _
  | Call_patch_event calendar_id event_id _ _
  | Call_update_event calendar_id event_id _ _
  | Call_move_event calendar_id event_id _ _ => [calendar_id; event_id]
  | Call_get_setting setting_id => [setting_id]
  | _ => []
  end.

(** The query part of a path as its recipient reads it: what follows the
    first [?]. *)
Definition path_query (full : string) : string := snd (partition "?" full).

(** The dict a call is given to send as its body: the [patch],
    [calendar], [entry], [event] or [channel] argument. *)
Definition given_dict (c : ToolCall) : option (dict PyVal) :=
  match c with
  | Call_patch_calendar _ d
  | Call_update_calendar _ d
  | Call_calendarlist_insert d
  | Call_calendarlist_patch _ d
  | Call_calendarlist_update _ d
  | Call_create_event _ d _ _
  | Call_patch_event _ _ d _
  | Call_update_event _ _ d _
  | Call_import_event _ d _
  | Call_settings_watch d
  | Call_channels_stop d
  | Call_events_watch _ d _ _ _
  | Call_calendarlist_watch d => Some d
  | _ => None
  end.

End Wire.

(** ** Facts about the form encoding *)

Module UrllibFacts.
Import Py Urllib.

Ltac each_byte c :=
  destruct c as [b0 b1 b2 b3 b4 b5 b6 b7];
  destruct b0, b1, b2, b3, b4, b5, b6, b7.

Lemma append_cons c a b : String c a +:+ b = String c (a +:+ b).
Proof. reflexivity. Qed.

Lemma append_empty_l a : "" +:+ a = a.
Proof. reflexivity. Qed.

Lemma append_empty_r a : a +:+ "" = a.
Proof. induction a as [|c a IH]; [reflexivity|]. now rewrite append_cons, IH. Qed.

Lemma append_assoc a b c : (a +:+ b) +:+ c = a +:+ (b +:+ c).
Proof.
  induction a as [|x a IH]; [reflexivity|].
  now rewrite !append_cons, IH.
Qed.

Lemma contains_app c a b :
  contains c (a +:+ b) = contains c a || contains c b.
Proof.
  induction a as [|x a IH]; [reflexivity|].
  rewrite append_cons. simpl. rewrite IH. now rewrite orb_assoc.
Qed.

Lemma replace_app old new a b :
  replace old new (a +:+ b) = replace old new a +:+ replace old new b.
Proof.
  induction a as [|x a IH]; [reflexivity|].
  rewrite append_cons. simpl. now rewrite IH, append_cons.
Qed.

Lemma quote_byte_no_space c :
  Ascii.eqb c " " = false ->
  (if always_safe c || contains c "" then String c "" else percent c) = enc c.
Proof. intros H. unfold enc. rewrite H. simpl. now rewrite orb_false_r. Qed.

Lemma quote_no_space s : contains " " s = false -> quote s "" = encode s.
Proof.
  induction s as [|c s IH]; [reflexivity|].
  simpl. intros [Hc Hs]%orb_false_elim.
  now rewrite quote_byte_no_space, IH.
Qed.

Lemma replace_quote_byte c :
  replace " " "+"
    (if always_safe c || contains c " " then String c "" else percent c)
  = enc c.
Proof. each_byte c; reflexivity. Qed.

Lemma replace_quote s : replace " " "+" (quote s " ") = encode s.
Proof.
  induction s as [|c s IH]; [reflexivity|].
  simpl. now rewrite replace_app, replace_quote_byte, IH.
Qed.

Lemma quote_plus_encode s : quote_plus s = encode s.
Proof.
  unfold quote_plus. destruct (contains " " s) eqn:E; simpl.
  - apply replace_quote.
  - now apply quote_no_space.
Qed.

Lemma enc_no_sep c :
  contains "&" (enc c) = false /\ contains "=" (enc c) = false.
Proof. each_byte c; split; reflexivity. Qed.

Lemma encode_no_amp s : contains "&" (encode s) = false.
Proof.
  induction s as [|c s IH]; [reflexivity|].
  simpl. rewrite contains_app, IH. now rewrite (proj1 (enc_no_sep c)).
Qed.

Lemma encode_no_eq s : contains "=" (encode s) = false.
Proof.
  induction s as [|c s IH]; [reflexivity|].
  simpl. rewrite contains_app, IH. now rewrite (proj2 (enc_no_sep c)).
Qed.

Lemma unquote_plus_enc c rest :
  unquote_plus (enc c +:+ rest) = String c (unquote_plus rest).
Proof. each_byte c; reflexivity. Qed.

Lemma unquote_plus_encode s : unquote_plus (encode s) = s.
Proof.
  induction s as [|c s IH]; [reflexivity|].
  simpl. now rewrite unquote_plus_enc, IH.
Qed.

Lemma unquote_plus_quote_plus s : unquote_plus (quote_plus s) = s.
Proof. rewrite quote_plus_encode. apply unquote_plus_encode. Qed.

Lemma partition_app sep a b :
  contains sep a = false ->
  partition sep (a +:+ String sep b) = (a, b).
Proof.
  induction a as [|c a IH]; simpl.
  - intros _. now rewrite Ascii.eqb_refl.
  - intros [Hc Ha]%orb_false_elim. now rewrite Hc, IH.
Qed.

Lemma split_whole sep a : contains sep a = false -> split sep a = [a].
Proof.
  induction a as [|c a IH]; simpl; [reflexivity|].
  intros [Hc Ha]%orb_false_elim. now rewrite Hc, IH.
Qed.

Lemma split_app sep a b :
  contains sep a = false ->
  split sep (a +:+ String sep b) = a :: split sep b.
Proof.
  induction a as [|c a IH]; simpl.
  - intros _. now rewrite Ascii.eqb_refl.
  - intros [Hc Ha]%orb_false_elim. now rewrite Hc, IH.
Qed.

Lemma field_no_amp kv : contains "&" (field kv) = false.
Proof.
  unfold field. rewrite !quote_plus_encode, !contains_app, !encode_no_amp.
  reflexivity.
Qed.

Lemma field_decode kv :
  (let (k, v) := partition "=" (field kv) in
   (unquote_plus k, unquote_plus v)) = shown kv.
Proof.
  unfold field, shown. rewrite !quote_plus_encode.
  change ("=" +:+ encode (str (snd kv)))
    with (String "=" (encode (str (snd kv)))).
  rewrite partition_app by apply encode_no_eq.
  now rewrite !unquote_plus_encode.
Qed.

Lemma field_nonempty kv : str_truthy (field kv) = true.
Proof.
  unfold field. destruct (quote_plus (fst kv)); reflexivity.
Qed.

Lemma split_join fields :
  fields <> [] ->
  split "&" (join "&" (map field fields)) = map field fields.
Proof.
  induction fields as [|kv [|kv' l] IH]; [easy| |]; intros _.
  - simpl. apply split_whole, field_no_amp.
  - change (join "&" (map field (kv :: kv' :: l)))
      with (field kv +:+ String "&" (join "&" (map field (kv' :: l)))).
    rewrite split_app by apply field_no_amp.
    rewrite IH by easy. reflexivity.
Qed.

Lemma urlencode_nonempty query :
  str_truthy (urlencode query) = dict_truthy query.
Proof.
  destruct query as [|kv [|kv' l]]; [reflexivity| |].
  - apply field_nonempty.
  - change (urlencode (kv :: kv' :: l))
      with (field kv +:+ String "&" (join "&" (map field (kv' :: l)))).
    pose proof (field_nonempty kv) as H.
    destruct (field kv); [discriminate|reflexivity].
Qed.

(** Decoding an encoded query gives back its entries, each value as
    [str] shows it, in order. *)
Lemma query_pairs_urlencode query :
  query_pairs (urlencode query) = map shown query.
Proof.
  destruct query as [|kv l]; [reflexivity|].
  pose proof (urlencode_nonempty (kv :: l)) as Hne.
  unfold query_pairs.
  destruct (urlencode (kv :: l)) as [|c qs] eqn:E; [discriminate|].
  rewrite <- E. unfold urlencode. fold field.
  change (fun kv0 : string * Scalar => field kv0) with field.
  rewrite split_join by easy.
  rewrite map_map. apply map_ext. intros a. apply field_decode.
Qed.

End UrllibFacts.

(** ** Facts about the request adapter *)

Module RequestFacts.
Import Py Urllib Dedalus GCal Wire UrllibFacts.

Lemma strip_prefix_app p s : strip_prefix p (p +:+ s) = Some s.
Proof.
  induction p as [|c p IH]; [reflexivity|].
  simpl. now rewrite Ascii.eqb_refl.
Qed.

Lemma strip_prefix_self p : strip_prefix p p = Some "".
Proof.
  rewrite <- (append_empty_r p) at 2. apply strip_prefix_app.
Qed.

Lemma query_of_bare p : query_of p p = "".
Proof. unfold query_of. now rewrite strip_prefix_self. Qed.

Lemma query_of_app p qs : query_of p (p +:+ "?" +:+ qs) = qs.
Proof. unfold query_of. now rewrite strip_prefix_app. Qed.

(** The query string [_request] appends is the encoding of the entries
    that are not [None]. *)
Lemma query_of_request_path p params :
  query_of p (request_path p params)
  = urlencode (without_None (default [] params)).
Proof.
  destruct params as [l|]; simpl; [|apply query_of_bare].
  destruct l as [|kv l]; [apply query_of_bare|].
  cbn [dict_truthy].
  destruct (urlencode (without_None (kv :: l))) as [|c qs] eqn:E;
    cbn [str_truthy].
  - apply query_of_bare.
  - apply query_of_app.
Qed.

Lemma request_of_request method p params body :
  request_of (_request method p params body)
  = Some (HttpRequest.mk method (request_path p params) body).
Proof. reflexivity. Qed.

Lemma query_params_request method p params body :
  query_params p (_request method p params body)
  = map shown (without_None (default [] params)).
Proof.
  unfold query_params. rewrite request_of_request.
  cbn [HttpRequest.path].
  rewrite query_of_request_path. apply query_pairs_urlencode.
Qed.

Lemma body_of_request method p params body :
  body_of (_request method p params body) = body.
Proof. reflexivity. Qed.

(** What [_request] returns from the answer of the capability. *)
Lemma run_request capability method p params body :
  run capability (_request method p params body)
  = let response :=
      capability "gcal-mcp"
        (HttpRequest.mk method (request_path p params) body) in
    if DispatchResponse.success response then
      match DispatchResponse.response response with
      | Some r => Returned (GCalResult_ok (HttpResponse.body r))
      | None => Raised AttributeError
      end
    else
      Returned
        (GCalResult_err
           match DispatchResponse.error response with
           | Some e => DispatchError.message e
           | None => "Request failed"
           end).
Proof.
  unfold _request. simpl.
  destruct (DispatchResponse.success _); [|reflexivity].
  destruct (DispatchResponse.response _); reflexivity.
Qed.

Lemma sent_request capability method p params body :
  sent capability (_request method p params body)
  = [("gcal-mcp", HttpRequest.mk method (request_path p params) body)].
Proof.
  unfold _request. simpl.
  destruct (DispatchResponse.success _); [|reflexivity].
  destruct (DispatchResponse.response _); reflexivity.
Qed.

(** Every tool is one call of the adapter at its endpoint. *)
Lemma invoke_request c :
  exists method params body,
    invoke c = _request method (endpoint c) params body.
Proof. destruct c; do 3 eexists; reflexivity. Qed.

Lemma without_None_all_None params :
  Forall (fun kv => snd kv = SNone) params -> without_None params = [].
Proof.
  induction 1 as [|[k v] l Hv _ IH]; [reflexivity|].
  simpl in Hv. subst v. exact IH.
Qed.

Lemma in_without_None k v params :
  In (k, v) (without_None params) <-> In (k, v) params /\ v <> SNone.
Proof.
  unfold without_None. rewrite filter_In. simpl.
  destruct v; simpl; intuition congruence.
Qed.

End RequestFacts.

(** ** The request adapter: results *)

Module AdapterSpec.
Import Py Urllib Dedalus GCal Wire UrllibFacts RequestFacts.

(** C1: when the dispatch capability answers [_request]'s request with
    [success=true] and a response object, [_request] returns a
    [GCalResult] with [success=true], no error, and [data] equal to the
    body of that response object, unchanged. *)
Theorem request_success_verbatim
    capability method path params body (r : HttpResponse.t) :
  let response :=
    capability "gcal-mcp"
      (HttpRequest.mk method (request_path path params) body) in
  DispatchResponse.success response = true ->
  DispatchResponse.response response = Some r ->
  run capability (_request method path params body)
  = Returned {| success := true; data := HttpResponse.body r;
                error := None |}.
Proof.
  intros response Hs Hr. rewrite run_request.
  fold response. cbv zeta. now rewrite Hs, Hr.
Qed.

Lemma request_success_verbatim_witness :
  run (always (ok_response (PList [PStr "a"; PNone])))
      (_request GET "/colors" None None)
  = Returned {| success := true; data := PList [PStr "a"; PNone];
                error := None |}.
Proof.
  apply (request_success_verbatim
           (always (ok_response (PList [PStr "a"; PNone])))
           GET "/colors" None None
           (HttpResponse.mk (PList [PStr "a"; PNone])));
    reflexivity.
Defined.

(** C2, as stated, fails: a failure answer whose error object carries
    the empty message makes [_request] return an empty error field. *)
Lemma request_failure_empty_message :
  run (always (failed_response (Some (DispatchError.mk ""))))
      (_request GET "/colors" None None)
  = Returned {| success := false; data := PNone; error := Some "" |}.
Proof. reflexivity. Qed.

(** C2, amended: when the dispatch capability answers with
    [success=false], [_request] returns a [GCalResult] with
    [success=false] whose error field is the message of the response's
    error object, exactly, and the string "Request failed" when the
    response carries no error object; so the field is never absent
    ([None]) on failure, and it is the empty string exactly when the
    response's error object carries the empty message. *)
Theorem request_failure_message capability method path params body :
  let response :=
    capability "gcal-mcp"
      (HttpRequest.mk method (request_path path params) body) in
  DispatchResponse.success response = false ->
  exists msg,
    run capability (_request method path params body)
    = Returned {| success := false; data := PNone; error := Some msg |}
    /\ (forall e, DispatchResponse.error response = Some e ->
                  msg = DispatchError.message e)
    /\ (DispatchResponse.error response = None -> msg = "Request failed")
    /\ (msg = "" <->
        exists e, DispatchResponse.error response = Some e
                  /\ DispatchError.message e = "").
Proof.
  intros response Hs. rewrite run_request. fold response. cbv zeta.
  rewrite Hs. destruct (DispatchResponse.error response) as [e|].
  - exists (DispatchError.message e).
    split; [reflexivity|]. split; [now intros e' [= <-]|].
    split; [discriminate|]. split.
    + intros E. now exists e.
    + now intros (e' & [= <-] & E).
  - exists "Request failed".
    split; [reflexivity|]. split; [discriminate|].
    split; [reflexivity|]. split; [discriminate|].
    now intros (e' & E & _).
Qed.

Lemma request_failure_message_witness :
  exists msg,
    run (always (failed_response None))
        (_request DELETE "/calendars/x" None None)
    = Returned {| success := false; data := PNone; error := Some msg |}
    /\ msg = "Request failed".
Proof.
  destruct (request_failure_message (always (failed_response None))
              DELETE "/calendars/x" None None eq_refl)
    as (msg & Hrun & _ & Hnone & _).
  exists msg. split; [exact Hrun | apply Hnone; reflexivity].
Defined.

Example request_failure_with_message :
  run (always (failed_response (Some (DispatchError.mk "Not Found"))))
      (_request GET "/calendars/x" None None)
  = Returned {| success := false; data := PNone;
                error := Some "Not Found" |}.
Proof. reflexivity. Qed.

(** C3: the query string [_request] constructs carries exactly the
    entries of [params] whose value is not [None], each value as [str]
    shows it and in the order of [params]; so with the keys of [params]
    distinct, a key whose value is [None] is no key of the query string;
    and when every value is [None] (or [params] is empty or [None]) the
    request is dispatched at [path] itself, with no [?] appended. *)
Theorem request_drops_None method path (params : dict Scalar) body :
  List.NoDup (dict_keys params) ->
  let sent_params :=
    query_params path (_request method path (Some params) body) in
  sent_params
  = map (fun kv => (fst kv, str (snd kv)))
        (List.filter (fun kv => is_not_None (snd kv)) params)
  /\ (forall k v, In (k, v) sent_params ->
        exists x, In (k, x) params /\ x <> SNone /\ v = str x)
  /\ (forall k, In (k, SNone) params -> ~ In k (map fst sent_params))
  /\ (Forall (fun kv => snd kv = SNone) params ->
      request_of (_request method path (Some params) body)
      = Some (HttpRequest.mk method path body))
  /\ request_of (_request method path None body)
     = Some (HttpRequest.mk method path body).
Proof.
  intros Hnd sent_params.
  assert (Hsent : sent_params = map shown (without_None params))
    by apply query_params_request.
  split; [exact Hsent|]. split; [|split; [|split]].
  - intros k v Hin. rewrite Hsent in Hin.
    apply in_map_iff in Hin as [[k' x] [[= <- <-] Hx]].
    apply in_without_None in Hx as [Hx Hn]. now exists x.
  - intros k HkNone Hin. rewrite Hsent, map_map in Hin.
    apply in_map_iff in Hin as [[k' x] [Hk Hx]]. simpl in Hk. subst k'.
    apply in_without_None in Hx as [Hx Hn].
    clear Hsent sent_params. unfold dict_keys in Hnd.
    induction params as [|[k0 v0] l IH]; [easy|].
    simpl in Hnd. apply List.NoDup_cons_iff in Hnd as [Hk0 Hl].
    destruct HkNone as [E|HkNone], Hx as [E'|Hx].
    + congruence.
    + injection E as -> _. apply Hk0. now apply (in_map fst) in Hx.
    + injection E' as -> _. apply Hk0. now apply (in_map fst) in HkNone.
    + now apply IH.
  - intros Hall. rewrite request_of_request. do 2 f_equal.
    unfold request_path. destruct params as [|kv l]; [reflexivity|].
    cbn [dict_truthy]. now rewrite without_None_all_None.
  - reflexivity.
Qed.

Lemma request_drops_None_witness :
  query_params "/calendars/primary/events"
    (_request GET "/calendars/primary/events"
       (Some [("q", SStr "team sync"); ("pageToken", SNone);
              ("maxResults", SInt 5)])
       None)
  = [("q", "team sync"); ("maxResults", "5")].
Proof.
  refine (proj1 (request_drops_None GET "/calendars/primary/events"
                   [("q", SStr "team sync"); ("pageToken", SNone);
                    ("maxResults", SInt 5)] None _)).
  repeat constructor; simpl; intuition discriminate.
Defined.

Lemma request_well_ended capability method path params body :
  well_ended capability (run capability (_request method path params body)).
Proof.
  rewrite run_request. cbv zeta.
  destruct (DispatchResponse.success _) eqn:Hs.
  - destruct (DispatchResponse.response _) eqn:Hr.
    + split; [reflexivity|discriminate].
    + simpl. eauto.
  - split; [discriminate|]. intros _. split; [reflexivity|]. eauto.
Qed.

(** C4: every [GCalResult] that [_request] returns, and so every one a
    tool operation returns, satisfies the invariant: [success=true]
    implies that [error] is [None]; [success=false] implies that [data]
    is [None] and that [error] holds a message.  (The only other way a
    run ends is by raising, when the capability answers [success=true]
    with no response object.) *)
Theorem results_satisfy_invariant capability :
  (forall method path params body,
      well_ended capability
        (run capability (_request method path params body)))
  /\ (forall c, well_ended capability (run capability (invoke c))).
Proof.
  split.
  - apply request_well_ended.
  - intros c. destruct (invoke_request c) as (m & ps & b & ->).
    apply request_well_ended.
Qed.

End AdapterSpec.

(** ** The tools: what they send *)

Module ToolSpec.
Import Py Urllib Dedalus GCal Wire UrllibFacts RequestFacts.

#[local] Arguments str_int : simpl never.
#[local] Arguments Py.max : simpl never.
#[local] Arguments Py.min : simpl never.

Lemma max_min_clamp z : Py.max 1 (Py.min 2500 z) = clamp 1 2500 z.
Proof.
  unfold Py.max, Py.min, clamp.
  destruct (Z.ltb_spec z 1), (Z.ltb_spec 2500 z); lia.
Qed.

Lemma clamp_range z : (1 <= clamp 1 2500 z <= 2500)%Z.
Proof.
  unfold clamp. destruct (Z.ltb_spec z 1), (Z.ltb_spec 2500 z); lia.
Qed.

Lemma clamp_inside z : (1 <= z <= 2500)%Z -> clamp 1 2500 z = z.
Proof.
  unfold clamp. destruct (Z.ltb_spec z 1), (Z.ltb_spec 2500 z); lia.
Qed.

Lemma lower_str_bool b : lower (str (SBool b)) = flag b.
Proof. now destruct b. Qed.

(** Expose the adapter call of a tool and read off its query. *)
Ltac open_tool :=
  cbv beta iota zeta delta
    [tool_query tool_body keys_at invoke endpoint
     gcal_list_calendars gcal_get_calendar gcal_create_calendar
     gcal_delete_calendar gcal_clear_calendar gcal_patch_calendar
     gcal_update_calendar gcal_calendarlist_get gcal_calendarlist_insert
     gcal_calendarlist_delete gcal_calendarlist_patch
     gcal_calendarlist_update gcal_create_event gcal_delete_event
     gcal_patch_event gcal_update_event gcal_quick_add_event
     gcal_move_event gcal_import_event gcal_channels_stop
     gcal_events_watch gcal_calendarlist_watch gcal_settings_watch
     gcal_list_events gcal_get_event gcal_search_events
     gcal_get_event_instances gcal_get_freebusy gcal_get_settings
     gcal_get_setting gcal_get_colors];
  rewrite ?query_params_request, ?body_of_request.

Ltac split_cases :=
  repeat match goal with
    | |- context [match ?x with _ => _ end] => destruct x; simpl
    end.

(** The query of [gcal_list_events], by the shape of its arguments. *)
Lemma list_events_query calendar_id time_min time_max z single_events
    order_by :
  query_params ("/calendars/" +:+ calendar_id +:+ "/events")
    (gcal_list_events calendar_id time_min time_max z single_events
       order_by)
  = [("maxResults", str_int (clamp 1 2500 z));
     ("singleEvents", flag single_events)]
    ++ (if opt_str_truthy time_min
        then [("timeMin", default "" time_min)] else [])
    ++ (if opt_str_truthy time_max
        then [("timeMax", default "" time_max)] else [])
    ++ (if single_events then [("orderBy", order_by)] else []).
Proof.
  open_tool. rewrite max_min_clamp, lower_str_bool.
  destruct time_min as [[|a s]|], time_max as [[|a' s']|], single_events;
    reflexivity.
Qed.

Lemma search_events_query query calendar_id time_min time_max z :
  query_params ("/calendars/" +:+ calendar_id +:+ "/events")
    (gcal_search_events query calendar_id time_min time_max z)
  = [("q", query);
     ("maxResults", str_int (clamp 1 2500 z));
     ("singleEvents", "true");
     ("orderBy", "startTime")]
    ++ (if opt_str_truthy time_min
        then [("timeMin", default "" time_min)] else [])
    ++ (if opt_str_truthy time_max
        then [("timeMax", default "" time_max)] else []).
Proof.
  open_tool. rewrite max_min_clamp.
  destruct time_min as [[|a s]|], time_max as [[|a' s']|]; reflexivity.
Qed.

Lemma event_instances_query calendar_id event_id time_min time_max z :
  query_params
    ("/calendars/" +:+ calendar_id +:+ "/events/" +:+ event_id
     +:+ "/instances")
    (gcal_get_event_instances calendar_id event_id time_min time_max z)
  = [("maxResults", str_int (clamp 1 2500 z))]
    ++ (if opt_str_truthy time_min
        then [("timeMin", default "" time_min)] else [])
    ++ (if opt_str_truthy time_max
        then [("timeMax", default "" time_max)] else []).
Proof.
  open_tool. rewrite max_min_clamp.
  destruct time_min as [[|a s]|], time_max as [[|a' s']|]; reflexivity.
Qed.

Lemma param_values_app key l1 l2 :
  param_values key (l1 ++ l2) = param_values key l1 ++ param_values key l2.
Proof. unfold param_values. now rewrite List.filter_app, map_app. Qed.

(** C5: for every integer [max_results], the three list-style tools send
    exactly one [maxResults] parameter, the decimal form of the input
    clamped to [[1, 2500]]; 0 is sent as 1, 5000 as 2500, and 100 as
    100. *)
Theorem max_results_clamped :
  (forall (z : Z) calendar_id event_id query time_min time_max
          single_events order_by,
      let sent := [str_int (clamp 1 2500 z)] in
      param_values "maxResults"
        (query_params ("/calendars/" +:+ calendar_id +:+ "/events")
           (gcal_list_events calendar_id time_min time_max z single_events
              order_by)) = sent
      /\ param_values "maxResults"
           (query_params ("/calendars/" +:+ calendar_id +:+ "/events")
              (gcal_search_events query calendar_id time_min time_max z))
         = sent
      /\ param_values "maxResults"
           (query_params
              ("/calendars/" +:+ calendar_id +:+ "/events/" +:+ event_id
               +:+ "/instances")
              (gcal_get_event_instances calendar_id event_id time_min
                 time_max z)) = sent)
  /\ (forall z, (1 <= clamp 1 2500 z <= 2500)%Z)
  /\ (forall z, (1 <= z <= 2500)%Z -> clamp 1 2500 z = z)
  /\ param_values "maxResults"
       (tool_query (Call_list_events None None None (Some 0%Z) None None))
     = ["1"]
  /\ param_values "maxResults"
       (tool_query (Call_search_events "standup" None None None
                      (Some 5000%Z)))
     = ["2500"]
  /\ param_values "maxResults"
       (tool_query (Call_get_event_instances "primary" "evt1" None None
                      (Some 100%Z)))
     = ["100"].
Proof.
  split; [|split; [exact clamp_range|split; [exact clamp_inside|]]].
  - intros z calendar_id event_id query time_min time_max single_events
      order_by sent.
    rewrite list_events_query, search_events_query, event_instances_query.
    rewrite !param_values_app.
    destruct (opt_str_truthy time_min), (opt_str_truthy time_max),
      single_events; repeat split; reflexivity.
  - repeat split; vm_compute; reflexivity.
Qed.

(** C10: [gcal_list_events] sends [orderBy] if and only if
    [single_events] is true: with [single_events=False] the query has no
    [orderBy] key, whatever [order_by] is, and with [single_events=True]
    it has exactly one, whose value is [order_by]. *)
Theorem order_by_iff_single_events
    calendar_id time_min time_max z (order_by : string) :
  let query single_events :=
    query_params ("/calendars/" +:+ calendar_id +:+ "/events")
      (gcal_list_events calendar_id time_min time_max z single_events
         order_by) in
  param_values "orderBy" (query false) = []
  /\ ~ In "orderBy" (map fst (query false))
  /\ param_values "orderBy" (query true) = [order_by]
  /\ (forall single_events,
        In "orderBy" (map fst (query single_events))
        <-> single_events = true).
Proof.
  intros query.
  assert (Hoff : ~ In "orderBy" (map fst (query false))).
  { unfold query. rewrite list_events_query.
    destruct (opt_str_truthy time_min), (opt_str_truthy time_max); simpl;
      intuition discriminate. }
  assert (Hon : In "orderBy" (map fst (query true))).
  { unfold query. rewrite list_events_query.
    destruct (opt_str_truthy time_min), (opt_str_truthy time_max); simpl;
      tauto. }
  repeat split; try assumption.
  - unfold query. rewrite list_events_query, !param_values_app.
    destruct (opt_str_truthy time_min), (opt_str_truthy time_max);
      reflexivity.
  - unfold query. rewrite list_events_query, !param_values_app.
    destruct (opt_str_truthy time_min), (opt_str_truthy time_max);
      reflexivity.
  - destruct single_events; [reflexivity|contradiction].
  - now intros ->.
Qed.

(** C6: every boolean query flag a tool call supplies ([single_events]
    of [gcal_list_events] and [gcal_events_watch],
    [supports_attachments] of [gcal_create_event] and
    [gcal_import_event]) is sent once, as the lowercase string "true" or
    "false", which differs from the capitalized form [str] gives the
    boolean. *)
Theorem bool_flags_lowercase c key (b : bool) :
  In (key, b) (bool_flags c) ->
  param_values key (tool_query c) = [if b then "true" else "false"]
  /\ (if b then "true" else "false") <> str (SBool b).
Proof.
  intros Hin. split; [|now destruct b].
  destruct c; simpl in Hin; try contradiction.
  - (* gcal_list_events *)
    destruct Hin as [[= <- <-]|[]].
    unfold tool_query, invoke, endpoint.
    rewrite list_events_query, !param_values_app.
    destruct (opt_str_truthy time_min), (opt_str_truthy time_max),
      single_events as [[]|]; reflexivity.
  - (* gcal_create_event *)
    destruct supports_attachments as [a|]; [|contradiction].
    destruct Hin as [[= <- <-]|[]].
    open_tool. destruct send_updates, a; reflexivity.
  - (* gcal_import_event *)
    destruct supports_attachments as [a|]; [|contradiction].
    destruct Hin as [[= <- <-]|[]].
    open_tool. destruct a; reflexivity.
  - (* gcal_events_watch *)
    destruct single_events as [e|]; [|contradiction].
    destruct Hin as [[= <- <-]|[]].
    open_tool. destruct time_min, time_max, e; reflexivity.
Qed.

Lemma bool_flags_lowercase_witness :
  param_values "supportsAttachments"
    (tool_query (Call_create_event "primary" [("summary", PStr "Lunch")]
                   (Some "all") (Some true)))
  = ["true"]
  /\ "true" <> "True".
Proof.
  apply (bool_flags_lowercase
           (Call_create_event "primary" [("summary", PStr "Lunch")]
              (Some "all") (Some true))
           "supportsAttachments" true).
  simpl. left. reflexivity.
Defined.

(** C7: [gcal_list_events] called with [calendar_id="primary"],
    [time_min="2025-01-01T00:00:00Z"], [max_results=10],
    [order_by="startTime"] and [single_events] left at its default sends
    exactly one request, a GET with no body whose path is
    [/calendars/primary/events] followed by a query string of four
    parameters, which read as a map are exactly
    [maxResults ↦ "10"], [singleEvents ↦ "true"],
    [timeMin ↦ "2025-01-01T00:00:00Z"], [orderBy ↦ "startTime"]. *)
Theorem list_events_scenario :
  let call :=
    Call_list_events (Some "primary") (Some "2025-01-01T00:00:00Z") None
      (Some 10%Z) None (Some "startTime") in
  request_of (invoke call)
  = Some (HttpRequest.mk GET
            ("/calendars/primary/events"
             +:+ "?maxResults=10&singleEvents=true"
             +:+ "&timeMin=2025-01-01T00%3A00%3A00Z&orderBy=startTime")
            None)
  /\ (forall capability, length (sent capability (invoke call)) = 1)
  /\ endpoint call = "/calendars/primary/events"
  /\ length (tool_query call) = 4
  /\ (list_to_map (tool_query call) : gmap string string)
     = {[ "maxResults" := "10"; "singleEvents" := "true";
          "timeMin" := "2025-01-01T00:00:00Z"; "orderBy" := "startTime" ]}.
Proof.
  intros call.
  assert (Hq : tool_query call
               = [("maxResults", "10"); ("singleEvents", "true");
                  ("timeMin", "2025-01-01T00:00:00Z");
                  ("orderBy", "startTime")])
    by (vm_compute; reflexivity).
  split; [|split; [|split; [|split]]].
  - vm_compute. reflexivity.
  - intros capability. unfold call, invoke, gcal_list_events. cbv zeta.
    now rewrite sent_request.
  - reflexivity.
  - now rewrite Hq.
  - rewrite Hq. apply map_eq. intros k. simpl.
    repeat (rewrite lookup_insert; case_decide; [reflexivity|]).
    reflexivity.
Qed.

(** One absent optional parameter at a time. *)
Ltac pick_absent H :=
  repeat match type of H with
    | context [absent _ _ ?x] => destruct x; simpl in H
    end;
  repeat match type of H with
    | _ \/ _ => destruct H as [H|H]
    end;
  try contradiction;
  injection H as <- <-.

Lemma absent_omitted c place key :
  In (place, key) (absent_optionals c) ->
  (place, key) <> (InBody, "items") ->
  ~ In key (keys_at place c).
Proof.
  intros Hin Hne.
  destruct c; simpl in Hin; try contradiction; pick_absent Hin;
    try congruence; open_tool; simpl; split_cases; intuition discriminate.
Qed.

(** C8, as stated, fails: [gcal_get_freebusy] called without
    [calendar_ids] (an optional parameter left absent) still sends the
    key [items] in its body. *)
Lemma absent_calendar_ids_sent :
  let call :=
    Call_get_freebusy "2025-01-01T00:00:00Z" "2025-01-02T00:00:00Z"
      None None in
  In (InBody, "items") (absent_optionals call)
  /\ In "items" (keys_at InBody call)
  /\ tool_body call
     = Some [("timeMin", PStr "2025-01-01T00:00:00Z");
             ("timeMax", PStr "2025-01-02T00:00:00Z");
             ("items", PList [PDict [("id", PStr "primary")]])].
Proof.
  intros call. split; [|split].
  - simpl. tauto.
  - simpl. tauto.
  - reflexivity.
Qed.

(** C8, amended: for every tool operation, a parameter declared
    [... | None] that the call leaves at [None] is no key of the query
    string (for a query parameter) or of the request body (for a body
    field), except [calendar_ids] of [gcal_get_freebusy], whose absence
    is sent as the default [items]; in particular [gcal_create_event]
    with [send_updates=None] sends a query string with no [sendUpdates]
    key. *)
Theorem absent_optionals_omitted :
  (forall c place key,
      In (place, key) (absent_optionals c) ->
      (place, key) <> (InBody, "items") ->
      ~ In key (keys_at place c))
  /\ (forall c place key,
        In (place, key) (absent_optionals c) ->
        (place, key) = (InBody, "items") ->
        exists time_min time_max time_zone,
          c = Call_get_freebusy time_min time_max None time_zone)
  /\ (forall calendar_id event supports_attachments,
        ~ In "sendUpdates"
            (map fst
               (query_params ("/calendars/" +:+ calendar_id +:+ "/events")
                  (gcal_create_event calendar_id event None
                     supports_attachments)))).
Proof.
  split; [exact absent_omitted|split].
  - intros c place key Hin [= -> ->].
    destruct c; simpl in Hin; try contradiction;
      repeat match type of Hin with
        | context [absent _ _ ?x] => destruct x; simpl in Hin
        end;
      intuition (try discriminate); eauto.
  - intros calendar_id event supports_attachments.
    open_tool. destruct supports_attachments as [[]|]; simpl;
      intuition discriminate.
Qed.

(** C9: [gcal_get_freebusy] sends a POST to [/freeBusy] with no query
    string, whose body carries [time_min] and [time_max] under
    [timeMin] and [timeMax] and, under [items], the one-element list
    [[{"id": "primary"}]] when [calendar_ids] is not supplied, and
    otherwise one [{"id": cal_id}] record per supplied id, in order. *)
Theorem freebusy_items time_min time_max calendar_ids time_zone :
  exists body,
    request_of (gcal_get_freebusy time_min time_max calendar_ids time_zone)
    = Some (HttpRequest.mk POST "/freeBusy" (Some body))
    /\ dict_get body "timeMin" = Some (PStr time_min)
    /\ dict_get body "timeMax" = Some (PStr time_max)
    /\ dict_get body "items"
       = Some (PList
                 match calendar_ids with
                 | None => [PDict [("id", PStr "primary")]]
                 | Some ids =>
                     map (fun cal_id => PDict [("id", PStr cal_id)]) ids
                 end).
Proof.
  unfold gcal_get_freebusy. cbv zeta. rewrite request_of_request.
  eexists. split; [reflexivity|].
  destruct time_zone as [[|a z]|], calendar_ids as [ids|];
    repeat split; reflexivity.
Qed.

End ToolSpec.


(** ** Further facts about the adapter and the tools *)

Module ToolFacts.
Import Py Urllib Dedalus GCal Wire UrllibFacts RequestFacts ToolSpec.

#[local] Arguments str_int : simpl never.
#[local] Arguments Py.max : simpl never.
#[local] Arguments Py.min : simpl never.

Lemma str_truthy_false s : str_truthy s = false -> s = "".
Proof. now destruct s. Qed.

(** The two shapes of the path [_request] dispatches. *)
Lemma request_path_shape p params :
  let qs := urlencode (without_None (default [] params)) in
  request_path p params = p +:+ (if str_truthy qs then "?" +:+ qs else "").
Proof.
  intros qs. unfold request_path.
  destruct params as [[|kv l]|]; try (symmetry; apply append_empty_r).
  cbn [dict_truthy]. subst qs. cbn [default from_option id].
  destruct (str_truthy (urlencode (without_None (kv :: l)))); [reflexivity|].
  symmetry; apply append_empty_r.
Qed.

(** X1: whatever the capability answers, a tool call hands it exactly one
    request, on the connection "gcal-mcp"; its path is the tool's endpoint,
    followed by [?] and the query string exactly when the call has query
    parameters. *)
Theorem one_request_per_call capability c :
  exists method qs body,
    sent capability (invoke c)
    = [("gcal-mcp",
        HttpRequest.mk method
          (endpoint c +:+ (if str_truthy qs then "?" +:+ qs else ""))
          body)]
    /\ query_pairs qs = tool_query c
    /\ (qs = "" <-> tool_query c = []).
Proof.
  unfold tool_query.
  destruct (invoke_request c) as (m & ps & b & ->).
  exists m, (urlencode (without_None (default [] ps))), b.
  rewrite sent_request, request_path_shape, query_params_request.
  split; [reflexivity|]. split; [apply query_pairs_urlencode|].
  pose proof (urlencode_nonempty (without_None (default [] ps))) as Hne.
  destruct (without_None (default [] ps)) as [|kv l]; [easy|].
  split; [|discriminate]. intros E. rewrite E in Hne. discriminate.
Qed.

(** X2: against a well-formed capability every tool call returns a
    result, built from the answer to its request alone: the success flag
    is the answer's; on success [data] is the response body and [error]
    is [None]; on failure [data] is [None] and [error] is the answer's
    message, or "Request failed" without an error object. *)
Theorem tool_result_from_answer capability c :
  well_formed capability ->
  exists request r,
    request_of (invoke c) = Some request
    /\ run capability (invoke c) = Returned r
    /\ let answer := capability "gcal-mcp" request in
       success r = DispatchResponse.success answer
       /\ (success r = true ->
           error r = None
           /\ HttpResponse.body <$> DispatchResponse.response answer
              = Some (data r))
       /\ (success r = false ->
           data r = PNone
           /\ error r
              = Some (from_option DispatchError.message "Request failed"
                        (DispatchResponse.error answer))).
Proof.
  intros Hwf. destruct (invoke_request c) as (m & ps & b & ->).
  exists (HttpRequest.mk m (request_path (endpoint c) ps) b).
  rewrite request_of_request, run_request. cbv zeta.
  specialize (Hwf "gcal-mcp"
                (HttpRequest.mk m (request_path (endpoint c) ps) b)).
  destruct (DispatchResponse.success _) eqn:Hs.
  - destruct (DispatchResponse.response _) as [resp|] eqn:Hr.
    + eexists. split; [reflexivity|]. split; [reflexivity|]. simpl.
      split; [reflexivity|]. split; [|discriminate].
      intros _. split; reflexivity.
    + exfalso. apply Hwf; congruence.
  - eexists. split; [reflexivity|]. split; [reflexivity|]. simpl.
    split; [reflexivity|]. split; [discriminate|]. intros _.
    split; [reflexivity|].
    now destruct (DispatchResponse.error _).
Qed.

Lemma tool_result_from_answer_witness :
  exists r,
    run (always (failed_response (Some (DispatchError.mk "Not Found"))))
        (invoke (Call_get_event "primary" "evt1"))
    = Returned r
    /\ success r = false
    /\ error r = Some "Not Found".
Proof.
  destruct (tool_result_from_answer
              (always (failed_response (Some (DispatchError.mk "Not Found"))))
              (Call_get_event "primary" "evt1"))
    as (request & r & _ & Hrun & Hs & _ & Hfail).
  - intros conn request. simpl. discriminate.
  - exists r. split; [exact Hrun|]. split; [exact Hs|].
    apply (proj2 (Hfail Hs)).
Defined.

(** X11: a [params] mapping with at least one value that is not [None]
    always makes [_request] append [?] and a non-empty query string, which
    decodes to the entries that are not [None]. *)
Theorem request_appends_query method path (params : dict Scalar) body k v :
  In (k, v) params ->
  v <> SNone ->
  exists qs,
    qs <> ""
    /\ request_of (_request method path (Some params) body)
       = Some (HttpRequest.mk method (path +:+ "?" +:+ qs) body)
    /\ query_pairs qs
       = map (fun kv => (fst kv, str (snd kv)))
             (List.filter (fun kv => is_not_None (snd kv)) params).
Proof.
  intros Hin Hv. exists (urlencode (without_None params)).
  assert (Hne : str_truthy (urlencode (without_None params)) = true).
  { rewrite urlencode_nonempty.
    assert (Hk : In (k, v) (without_None params))
      by now apply in_without_None.
    now destruct (without_None params). }
  split; [intros E; rewrite E in Hne; discriminate|].
  split; [|apply query_pairs_urlencode].
  rewrite request_of_request, request_path_shape.
  cbn [default from_option id]. now rewrite Hne.
Qed.

Lemma request_appends_query_witness :
  exists qs,
    qs <> ""
    /\ request_of (_request GET "/x" (Some [("", SStr "")]) None)
       = Some (HttpRequest.mk GET ("/x" +:+ "?" +:+ qs) None)
    /\ query_pairs qs = [("", "")].
Proof.
  apply (request_appends_query GET "/x" [("", SStr "")] None "" (SStr "")).
  - simpl. left. reflexivity.
  - discriminate.
Defined.

Lemma all_chars_app ok a b :
  all_chars ok (a +:+ b) = all_chars ok a && all_chars ok b.
Proof.
  induction a as [|c a IH]; [reflexivity|].
  simpl. now rewrite IH, andb_assoc.
Qed.

Lemma enc_query_chars c : all_chars query_char (enc c) = true.
Proof. each_byte c; reflexivity. Qed.

Lemma encode_query_chars s : all_chars query_char (encode s) = true.
Proof.
  induction s as [|c s IH]; [reflexivity|].
  simpl. now rewrite all_chars_app, enc_query_chars, IH.
Qed.

Lemma field_query_chars kv : all_chars query_char (field kv) = true.
Proof.
  unfold field. rewrite !quote_plus_encode, !all_chars_app.
  now rewrite !encode_query_chars.
Qed.

Lemma urlencode_query_chars query :
  all_chars query_char (urlencode query) = true.
Proof.
  unfold urlencode.
  change (fun kv : string * Scalar =>
            quote_plus (fst kv) +:+ "=" +:+ quote_plus (str (snd kv)))
    with field.
  induction query as [|kv [|kv' l] IH]; [reflexivity| |].
  - apply field_query_chars.
  - change (join "&" (map field (kv :: kv' :: l)))
      with (field kv +:+ String "&" (join "&" (map field (kv' :: l)))).
    rewrite all_chars_app, field_query_chars.
    change (all_chars query_char (join "&" (map field (kv' :: l))) = true).
    exact IH.
Qed.

Lemma all_chars_excludes ok c s :
  ok c = false -> all_chars ok s = true -> contains c s = false.
Proof.
  intros Hc. induction s as [|a s IH]; [reflexivity|].
  simpl. intros [Ha Hs]%andb_prop.
  rewrite (IH Hs), orb_false_r.
  destruct (Ascii.eqb_spec a c) as [->|]; [congruence|reflexivity].
Qed.

Lemma well_escaped_enc c rest :
  well_escaped (enc c +:+ rest) = well_escaped rest.
Proof. each_byte c; reflexivity. Qed.

Lemma well_escaped_encode s rest :
  well_escaped (encode s +:+ rest) = well_escaped rest.
Proof.
  induction s as [|c s IH]; [reflexivity|].
  simpl. now rewrite append_assoc, well_escaped_enc.
Qed.

Lemma well_escaped_field kv rest :
  well_escaped (field kv +:+ rest) = well_escaped rest.
Proof.
  unfold field. rewrite !quote_plus_encode, !append_assoc.
  rewrite well_escaped_encode.
  change (well_escaped (encode (str (snd kv)) +:+ rest) = well_escaped rest).
  apply well_escaped_encode.
Qed.

Lemma urlencode_well_escaped query : well_escaped (urlencode query) = true.
Proof.
  unfold urlencode.
  change (fun kv : string * Scalar =>
            quote_plus (fst kv) +:+ "=" +:+ quote_plus (str (snd kv)))
    with field.
  induction query as [|kv [|kv' l] IH]; [reflexivity| |].
  - cbn [map join]. rewrite <- (append_empty_r (field kv)).
    now rewrite well_escaped_field.
  - change (join "&" (map field (kv :: kv' :: l)))
      with (field kv +:+ String "&" (join "&" (map field (kv' :: l)))).
    rewrite well_escaped_field.
    change (well_escaped (join "&" (map field (kv' :: l))) = true).
    exact IH.
Qed.

(** X3: whatever the keys and values of [params], the query string
    [_request] appends consists of unreserved bytes, [+], [=], [&] and
    escapes only, every [%] being followed by two upper-case hexadecimal
    digits; a space, [?], [#], [/], [@], [!], [*], ['], [(], [)], [,],
    [;], [$] or [:] in a parameter never reaches it unescaped. *)
Theorem query_string_is_escaped method path params body :
  exists request,
    request_of (_request method path params body) = Some request
    /\ let qs := query_of path (HttpRequest.path request) in
       well_escaped qs = true
       /\ all_chars query_char qs = true
       /\ Forall (fun c => contains c qs = false)
            (list_ascii_of_string " ?#/@!*'(),;$:").
Proof.
  eexists. split; [apply request_of_request|].
  cbn [HttpRequest.path]. rewrite query_of_request_path. cbv zeta.
  pose proof (urlencode_query_chars (without_None (default [] params))) as H.
  split; [apply urlencode_well_escaped|]. split; [exact H|].
  cbn [list_ascii_of_string].
  repeat (apply List.Forall_cons;
          [apply (all_chars_excludes query_char); [reflexivity|exact H]|]).
  apply List.Forall_nil.
Qed.

Ltac in_list := simpl; repeat first [left; reflexivity | right].

Ltac keys_goal :=
  simpl; split;
  [ repeat (apply List.NoDup_cons; [simpl; intuition discriminate|]);
    apply List.NoDup_nil
  | repeat (apply List.Forall_cons; [in_list|]); apply List.Forall_nil ].

(** The keys of the query a tool builds from its parameters. *)
Lemma tool_query_keys c :
  List.NoDup (map fst (tool_query c))
  /\ Forall (fun k => In k query_vocabulary) (map fst (tool_query c)).
Proof.
  destruct c;
    try (unfold tool_query, invoke, endpoint;
         first [rewrite list_events_query | rewrite search_events_query
               | rewrite event_instances_query];
         repeat match goal with
           | |- context [if ?b then _ else _] => destruct b
           end;
         keys_goal);
    open_tool;
    repeat match goal with x : option _ |- _ => destruct x end;
    keys_goal.
Qed.

Lemma partition_none sep a :
  contains sep a = false -> partition sep a = (a, "").
Proof.
  induction a as [|c a IH]; [reflexivity|].
  simpl. intros [Hc Ha]%orb_false_elim. now rewrite Hc, IH.
Qed.

(** With no [?] in its identifiers, a call's endpoint has none. *)
Lemma endpoint_no_question c :
  Forall (fun i => contains "?" i = false) (identifiers c) ->
  contains "?" (endpoint c) = false.
Proof.
  intros H. destruct c; cbn [identifiers] in H;
    rewrite ?List.Forall_cons_iff in H;
    repeat match goal with H : _ /\ _ |- _ => destruct H end;
    cbn [endpoint]; rewrite ?contains_app;
    repeat match goal with
      | E : contains _ _ = false |- _ => rewrite E; clear E
      end;
    reflexivity.
Qed.

(** What follows the first [?] of the dispatched path is the query the
    tool built, when the endpoint itself has no [?]. *)
Lemma path_query_is_tool_query c :
  contains "?" (endpoint c) = false ->
  exists request,
    request_of (invoke c) = Some request
    /\ query_pairs (path_query (HttpRequest.path request)) = tool_query c.
Proof.
  intros Hep. unfold tool_query.
  destruct (invoke_request c) as (m & ps & b & ->).
  eexists. split; [apply request_of_request|].
  cbn [HttpRequest.path].
  rewrite query_params_request, request_path_shape. cbv zeta.
  unfold path_query.
  destruct (str_truthy (urlencode (without_None (default [] ps)))) eqn:E.
  - change ("?" +:+ urlencode (without_None (default [] ps)))
      with (String "?" (urlencode (without_None (default [] ps)))).
    rewrite partition_app by exact Hep. apply query_pairs_urlencode.
  - rewrite append_empty_r, partition_none by exact Hep.
    apply str_truthy_false in E. cbn [snd].
    rewrite <- query_pairs_urlencode. now rewrite E.
Qed.

(** X4: in every tool call whose path identifiers hold no [?], the query
    part of the dispatched path (what follows its first [?]) decodes to
    parameters whose keys are pairwise distinct and are parameter names of
    the Calendar API: no argument sent as a parameter value becomes a
    key. *)
Theorem parameter_keys_distinct_and_known c :
  Forall (fun i => contains "?" i = false) (identifiers c) ->
  exists request,
    request_of (invoke c) = Some request
    /\ let keys :=
         map fst (query_pairs (path_query (HttpRequest.path request))) in
       List.NoDup keys /\ Forall (fun k => In k query_vocabulary) keys.
Proof.
  intros Hids.
  destruct (path_query_is_tool_query c (endpoint_no_question c Hids))
    as (request & Hreq & Hq).
  exists request. split; [exact Hreq|]. cbv zeta. rewrite Hq.
  apply tool_query_keys.
Qed.

Lemma parameter_keys_distinct_and_known_witness :
  exists request,
    request_of
      (invoke (Call_create_event "primary" [("summary", PStr "Lunch")]
                 (Some "all&evil=1") (Some true)))
    = Some request
    /\ map fst (query_pairs (path_query (HttpRequest.path request)))
       = ["sendUpdates"; "supportsAttachments"].
Proof.
  destruct (parameter_keys_distinct_and_known
              (Call_create_event "primary" [("summary", PStr "Lunch")]
                 (Some "all&evil=1") (Some true)))
    as (request & Hreq & _).
  - repeat constructor.
  - exists request. split; [exact Hreq|].
    injection Hreq as <-. reflexivity.
Defined.

(** The hypothesis on the identifiers is needed: they are put into the
    path as they are, so a [?] in one starts the query part early. *)
Example identifier_with_question_mark :
  exists request,
    request_of (invoke (Call_get_calendar "a?evil=1")) = Some request
    /\ HttpRequest.path request = "/calendars/a?evil=1"
    /\ query_pairs (path_query (HttpRequest.path request)) = [("evil", "1")].
Proof. eexists. repeat split. Qed.

(** X5: a tool that dispatches GET or DELETE sends no body; a tool that
    is given a dict to send (a patch, calendar, entry, event or channel)
    sends exactly that dict as its body; and every tool that dispatches
    PUT or PATCH is such a tool. *)
Theorem body_follows_method c :
  exists request,
    request_of (invoke c) = Some request
    /\ (forall d, given_dict c = Some d ->
                  HttpRequest.body request = Some d)
    /\ match HttpRequest.method request with
       | GET | DELETE => HttpRequest.body request = None
       | PUT | PATCH =>
           exists d, given_dict c = Some d
                     /\ HttpRequest.body request = Some d
       | POST => True
       end.
Proof.
  destruct c; open_tool;
    (eexists; split; [apply request_of_request|]);
    cbn [HttpRequest.method HttpRequest.body given_dict];
    (split; [intros d [= <-] || intros d [=]; reflexivity|]);
    first [reflexivity | exact I | eexists; split; reflexivity].
Qed.

(** The query of [gcal_events_watch], by the shape of its arguments. *)
Lemma events_watch_query calendar_id channel time_min time_max single_events :
  query_params ("/calendars/" +:+ calendar_id +:+ "/events/watch")
    (gcal_events_watch calendar_id channel time_min time_max single_events)
  = match time_min with Some t => [("timeMin", t)] | None => [] end
    ++ match time_max with Some t => [("timeMax", t)] | None => [] end
    ++ match single_events with
       | Some e => [("singleEvents", flag e)]
       | None => []
       end.
Proof.
  open_tool. destruct time_min, time_max, single_events as [[]|]; reflexivity.
Qed.

(** X6: the list-style tools treat an empty [time_min] or [time_max] as
    an absent one and send no such key, whereas [gcal_events_watch], which
    tests for [None] only, sends the key with an empty value. *)
Theorem empty_time_filter :
  (forall calendar_id event_id query time_max z single_events order_by,
      gcal_list_events calendar_id (Some "") time_max z single_events order_by
      = gcal_list_events calendar_id None time_max z single_events order_by
      /\ gcal_search_events query calendar_id (Some "") time_max z
         = gcal_search_events query calendar_id None time_max z
      /\ gcal_get_event_instances calendar_id event_id (Some "") time_max z
         = gcal_get_event_instances calendar_id event_id None time_max z
      /\ param_values "timeMin"
           (query_params ("/calendars/" +:+ calendar_id +:+ "/events")
              (gcal_list_events calendar_id (Some "") time_max z single_events
                 order_by)) = [])
  /\ (forall calendar_id event_id query time_min z single_events order_by,
        gcal_list_events calendar_id time_min (Some "") z single_events
          order_by
        = gcal_list_events calendar_id time_min None z single_events order_by
        /\ gcal_search_events query calendar_id time_min (Some "") z
           = gcal_search_events query calendar_id time_min None z
        /\ gcal_get_event_instances calendar_id event_id time_min (Some "") z
           = gcal_get_event_instances calendar_id event_id time_min None z)
  /\ (forall calendar_id channel time_min time_max single_events,
        let watch tmin tmax :=
          query_params ("/calendars/" +:+ calendar_id +:+ "/events/watch")
            (gcal_events_watch calendar_id channel tmin tmax single_events) in
        param_values "timeMin" (watch (Some "") time_max) = [""]
        /\ param_values "timeMax" (watch time_min (Some "")) = [""]).
Proof.
  split; [|split].
  - intros. repeat split.
    rewrite list_events_query, !param_values_app.
    destruct (opt_str_truthy time_max), single_events; reflexivity.
  - intros. repeat split.
  - intros. unfold watch. rewrite !events_watch_query, !param_values_app.
    destruct time_min, time_max, single_events; split; reflexivity.
Qed.

(** X7: [gcal_create_calendar] posts to [/calendars] a body that always
    holds [summary] and holds [description], [timeZone] and [location]
    exactly when the argument is not [None], each with the value given
    (an empty string included); it holds no other key and none twice. *)
Theorem create_calendar_body summary description time_zone location :
  exists body,
    request_of (gcal_create_calendar summary description time_zone location)
    = Some (HttpRequest.mk POST "/calendars" (Some body))
    /\ dict_get body "summary" = Some (PStr summary)
    /\ dict_get body "description" = PStr <$> description
    /\ dict_get body "timeZone" = PStr <$> time_zone
    /\ dict_get body "location" = PStr <$> location
    /\ List.NoDup (dict_keys body)
    /\ Forall (fun k => In k ["summary"; "description"; "timeZone"; "location"])
         (dict_keys body).
Proof.
  unfold gcal_create_calendar. cbv zeta. rewrite request_of_request.
  eexists. split; [reflexivity|].
  destruct description, time_zone, location; simpl;
    (split; [reflexivity|]); (split; [reflexivity|]);
    (split; [reflexivity|]); (split; [reflexivity|]);
    (split;
     [ repeat (apply List.NoDup_cons; [simpl; intuition discriminate|]);
       apply List.NoDup_nil
     | repeat (apply List.Forall_cons; [in_list|]); apply List.Forall_nil ]).
Qed.

(** X8: [gcal_search_events] sends what [gcal_list_events] sends for the
    same calendar, time window and [max_results] with [single_events=True]
    and [order_by="startTime"], plus the parameter [q]; the two queries
    agree up to the order of the parameters. *)
Theorem search_events_is_list_events_with_q
    query calendar_id time_min time_max z :
  Permutation
    (query_params ("/calendars/" +:+ calendar_id +:+ "/events")
       (gcal_search_events query calendar_id time_min time_max z))
    (("q", query)
     :: query_params ("/calendars/" +:+ calendar_id +:+ "/events")
          (gcal_list_events calendar_id time_min time_max z true
             "startTime")).
Proof.
  rewrite search_events_query, list_events_query.
  cbn [app flag]. do 3 apply perm_skip.
  rewrite app_assoc. apply Permutation_cons_append.
Qed.

(** X9: the free text a caller passes ([text] of [gcal_quick_add_event],
    [destination_calendar_id] of [gcal_move_event], [query] of
    [gcal_search_events]) reaches the query string as one parameter whose
    decoded value is the text itself, whatever bytes it holds. *)
Theorem free_text_arrives_verbatim :
  (forall calendar_id text send_updates,
      param_values "text"
        (query_params ("/calendars/" +:+ calendar_id +:+ "/events/quickAdd")
           (gcal_quick_add_event calendar_id text send_updates))
      = [text])
  /\ (forall source_calendar_id event_id destination_calendar_id send_updates,
        param_values "destination"
          (query_params
             ("/calendars/" +:+ source_calendar_id +:+ "/events/"
              +:+ event_id +:+ "/move")
             (gcal_move_event source_calendar_id event_id
                destination_calendar_id send_updates))
        = [destination_calendar_id])
  /\ (forall query calendar_id time_min time_max z,
        param_values "q"
          (query_params ("/calendars/" +:+ calendar_id +:+ "/events")
             (gcal_search_events query calendar_id time_min time_max z))
        = [query]).
Proof.
  split; [|split]; intros.
  - open_tool. destruct send_updates; reflexivity.
  - open_tool. destruct send_updates; reflexivity.
  - rewrite search_events_query, !param_values_app.
    destruct (opt_str_truthy time_min), (opt_str_truthy time_max);
      reflexivity.
Qed.

(** X10: in the six tools that take [send_updates], the query string
    carries [sendUpdates] exactly when the argument is not [None], once,
    with the argument's value unchanged (no check against the values the
    API knows; an empty string is sent as an empty value). *)
Theorem send_updates_passed_through
    calendar_id event_id text destination (body : dict PyVal)
    supports_attachments (send_updates : option string) :
  let sent_as m endpoint :=
    param_values "sendUpdates" (query_params (A := GCalResult) endpoint m) in
  let expected :=
    match send_updates with Some u => [u] | None => [] end in
  let event_path :=
    "/calendars/" +:+ calendar_id +:+ "/events/" +:+ event_id in
  sent_as
    (gcal_create_event calendar_id body send_updates supports_attachments)
    ("/calendars/" +:+ calendar_id +:+ "/events") = expected
  /\ sent_as (gcal_delete_event calendar_id event_id send_updates)
       event_path = expected
  /\ sent_as (gcal_patch_event calendar_id event_id body send_updates)
       event_path = expected
  /\ sent_as (gcal_update_event calendar_id event_id body send_updates)
       event_path = expected
  /\ sent_as (gcal_quick_add_event calendar_id text send_updates)
       ("/calendars/" +:+ calendar_id +:+ "/events/quickAdd") = expected
  /\ sent_as (gcal_move_event calendar_id event_id destination send_updates)
       (event_path +:+ "/move") = expected.
Proof.
  intros sent_as expected event_path. unfold sent_as, expected, event_path.
  assert (Hmove :
            ("/calendars/" +:+ calendar_id +:+ "/events/" +:+ event_id)
            +:+ "/move"
            = "/calendars/" +:+ calendar_id +:+ "/events/" +:+ event_id
              +:+ "/move").
  { change ("/calendars/" +:+ calendar_id +:+ "/events/" +:+ event_id)
      with (("/calendars/" +:+ calendar_id) +:+ "/events/" +:+ event_id).
    change ("/calendars/" +:+ calendar_id +:+ "/events/" +:+ event_id
            +:+ "/move")
      with (("/calendars/" +:+ calendar_id) +:+ "/events/" +:+ event_id
            +:+ "/move").
    now rewrite !append_assoc. }
  rewrite Hmove. open_tool.
  destruct send_updates, supports_attachments as [[]|]; repeat split.
Qed.

(** X12: the body of [gcal_get_freebusy] has the keys [timeMin],
    [timeMax], [items], in that order, followed by [timeZone] exactly when
    [time_zone] is a non-empty string, with that string as its value; an
    empty [time_zone] is dropped like an absent one. *)
Theorem freebusy_time_zone time_min time_max calendar_ids time_zone :
  exists body,
    body_of (gcal_get_freebusy time_min time_max calendar_ids time_zone)
    = Some body
    /\ dict_keys body
       = ["timeMin"; "timeMax"; "items"]
         ++ (if opt_str_truthy time_zone then ["timeZone"] else [])
    /\ dict_get body "timeZone"
       = (if opt_str_truthy time_zone then PStr <$> time_zone else None).
Proof.
  unfold gcal_get_freebusy. cbv zeta. rewrite body_of_request.
  eexists. split; [reflexivity|].
  destruct time_zone as [[|a z]|]; split; reflexivity.
Qed.

End ToolFacts.
